(** * Building Energy Management dashboard ([streamlit_app.py])

    A shallow embedding of the synthetic data generator, of the date filter
    and the aggregations that feed the views, and of the session-scoped
    device registry, followed by the properties of each.

    Conventions of the embedding:
    - a Python [float] is a binary64 [PrimFloat.float]; Python's [==] on
      floats is [PrimFloat.eqb];
    - a pandas [Timestamp] of the minute-frequency index is the integer
      number of minutes elapsed since midnight of proleptic Gregorian
      ordinal day 0, and a [datetime.date] is its ordinal ([date.toordinal]);
    - a [DataFrame] is the list of its rows, in row order; the sum of a
      column is numpy's pairwise sum, and the sums and means of a groupby
      are those of the pandas kernels, one pass over the rows with a
      compensated sum per group;
    - [numpy.random] is a state of an arbitrary type threaded through the
      generator, sampled by [uniform];
    - [st.session_state.devices], a Python [dict], is an association list in
      insertion order with unique keys. *)

From Stdlib Require Import ZArith List String Ascii Bool Lia Floats.
From Stdlib Require Import Sorting.Sorted Sorting.Permutation.
Import ListNotations.

Open Scope string_scope.
Open Scope list_scope.
Open Scope Z_scope.

(** ** Dates and timestamps *)

Module Calendar.

(** [datetime._is_leap] *)
Definition is_leap (year : Z) : bool :=
  (year mod 4 =? 0) && (negb (year mod 100 =? 0) || (year mod 400 =? 0)).

(** [datetime._days_before_year] *)
Definition days_before_year (year : Z) : Z :=
  let y := year - 1 in
  y * 365 + y / 4 - y / 100 + y / 400.

(** [datetime._DAYS_BEFORE_MONTH], months counted from 1 *)
Definition DAYS_BEFORE_MONTH : list Z :=
  [-1; 0; 31; 59; 90; 120; 151; 181; 212; 243; 273; 304; 334].

(** [datetime._days_before_month] *)
Definition days_before_month (year month : Z) : Z :=
  nth (Z.to_nat month) DAYS_BEFORE_MONTH 0
  + (if (2 <? month) && is_leap year then 1 else 0).

(** [datetime._ymd2ord]: the ordinal of a calendar day, 0001-01-01 being 1. *)
Definition ymd2ord (year month day : Z) : Z :=
  days_before_year year + days_before_month year month + day.

(** A [datetime.date], as compared by [<=] and [>=]. *)
Definition Date := Z.

Definition date (year month day : Z) : Date := ymd2ord year month day.

(** A minute-resolution instant. *)
Definition Timestamp := Z.

Definition minutes_per_day : Z := 1440.

(** [datetime(year, month, day, hour, minute)] *)
Definition datetime (year month day hour minute : Z) : Timestamp :=
  (ymd2ord year month day * 24 + hour) * 60 + minute.

(** [Timestamp.hour] *)
Definition hour (t : Timestamp) : Z := (t / 60) mod 24.

(** [Timestamp.minute] *)
Definition minute (t : Timestamp) : Z := t mod 60.

(** [Series.dt.date] on one timestamp *)
Definition date_of (t : Timestamp) : Date := t / minutes_per_day.

(** [pd.date_range(start, end, freq='T')]: every minute from [start] to
    [end], both included; empty when [end] is before [start]. *)
Definition date_range (start_date end_date : Timestamp) : list Timestamp :=
  map (fun k => start_date + Z.of_nat k)
      (seq 0 (Z.to_nat (end_date - start_date + 1))).

End Calendar.
Import Calendar.

(** ** Readings *)

Record Reading : Type := mkReading {
  timestamp : Timestamp;
  room_id : string;
  floor : string;
  voltage : float;
  current : float;
  power : float;
  energy_kwh : float;
  bill_taka : float;
  carbon_gco2 : float;
  status : string
}.

(** A [DataFrame] with the columns of [generate_data]. *)
Definition DataFrame := list Reading.

(** ** The data generator *)

Definition rooms : list string :=
  ["101"; "102"; "103"; "201"; "202"; "203"; "301"; "302"; "303"].

Definition floors : list string :=
  repeat "1" 3 ++ repeat "2" 3 ++ repeat "3" 3.

(** The window of [generate_data]: [start_date] and [end_date]. *)
Definition window_start : Timestamp := datetime 2025 11 1 0 0.
Definition window_end : Timestamp := datetime 2025 11 23 23 59.

Section Generator.

(** The state of the random number generator and [np.random.uniform]. *)
Variable RandomState : Type.
Variable uniform : float -> float -> RandomState -> float * RandomState.

(** The body of the inner loop: the row appended for [room], [floor] and
    [date].  The second draw happens only in operating hours; outside them
    the current is the integer [0], a [0.0] of the float column. *)
Definition reading_at (room floor : string) (date : Timestamp)
    (g : RandomState) : Reading * RandomState :=
  let (voltage, g1) := uniform 220 240 g in
  let (current, g2) :=
    if (8 <=? hour date) && (hour date <? 20)
    then uniform 5 10 g1
    else (0%float, g1) in
  let power := (voltage * current)%float in
  let energy_kwh := (power / 1000 / 60)%float in
  let bill_taka := (energy_kwh * 5)%float in
  let carbon_gco2 := (energy_kwh * 500)%float in
  let status :=
    if (hour date <? 8) || (20 <=? hour date) then "off" else "on" in
  (mkReading date room floor voltage current power energy_kwh bill_taka
             carbon_gco2 status, g2).

(** [for date in dates: ... data.append(...)], as the rows appended and
    the generator state left. *)
Fixpoint for_dates (room floor : string) (dates : list Timestamp)
    (g : RandomState) : list Reading * RandomState :=
  match dates with
  | [] => ([], g)
  | date :: dates' =>
      let (row, g1) := reading_at room floor date g in
      let (rows, g2) := for_dates room floor dates' g1 in
      (row :: rows, g2)
  end.

(** [for room, floor in zip(rooms, floors): ...] *)
Fixpoint for_rooms (pairs : list (string * string)) (dates : list Timestamp)
    (g : RandomState) : list Reading * RandomState :=
  match pairs with
  | [] => ([], g)
  | (room, floor) :: pairs' =>
      let (rows, g1) := for_dates room floor dates g in
      let (rest, g2) := for_rooms pairs' dates g1 in
      (rows ++ rest, g2)
  end.

(** [generate_data] with its window left open. *)
Definition generate_table (start_date end_date : Timestamp)
    (g : RandomState) : DataFrame :=
  let dates := date_range start_date end_date in
  fst (for_rooms (combine rooms floors) dates g).

(** [generate_data]: the table of 1 to 23 November 2025. *)
Definition generate_data (g : RandomState) : DataFrame :=
  generate_table window_start window_end g.

(** What the generator needs of [np.random.uniform]: a draw from
    [lo, hi) lies in it. *)
Definition uniform_in_range (lo hi : float) : Prop :=
  forall g, (lo <=? fst (uniform lo hi g))%float = true
            /\ (fst (uniform lo hi g) <? hi)%float = true.

End Generator.

Arguments reading_at {RandomState} uniform room floor date g.
Arguments for_dates {RandomState} uniform room floor dates g.
Arguments for_rooms {RandomState} uniform pairs dates g.
Arguments generate_table {RandomState} uniform start_date end_date g.
Arguments generate_data {RandomState} uniform g.
Arguments uniform_in_range {RandomState} uniform lo hi.

(** A small linear congruential generator, used to run the generator. *)
Module Lcg.

Definition modulus : Z := 4096.

Definition next (g : Z) : Z := (g * 1365 + 1) mod modulus.

Definition float_of_Z (z : Z) : float := PrimFloat.of_uint63 (Uint63.of_Z z).

Definition scale (lo hi : float) (k : Z) : float :=
  (lo + (hi - lo) * (float_of_Z k / float_of_Z modulus))%float.

Definition uniform (lo hi : float) (g : Z) : float * Z :=
  let g' := next g in (scale lo hi g', g').

End Lcg.

(** ** The numpy and pandas operations the views use *)

(** The sum of a one-dimensional float64 array, [np.add.reduce]: numpy's
    pairwise summation. *)
Module Numpy.

(** The eight partial sums [r[0]] to [r[7]] of a block. *)
Record Lanes : Type := mkLanes {
  r0 : float; r1 : float; r2 : float; r3 : float;
  r4 : float; r5 : float; r6 : float; r7 : float
}.

(** [for (i = 8; i < n - (n % 8); i += 8) r[j] += a[i + j]]: the lanes
    after the full groups of eight, and the elements left over. *)
Fixpoint unrolled (r : Lanes) (a : list float) : Lanes * list float :=
  match a with
  | a0 :: a1 :: a2 :: a3 :: a4 :: a5 :: a6 :: a7 :: rest =>
      unrolled (mkLanes (r0 r + a0) (r1 r + a1) (r2 r + a2) (r3 r + a3)
                        (r4 r + a4) (r5 r + a5) (r6 r + a6) (r7 r + a7))
               rest
  | _ => (r, a)
  end.

(** The sum of a block of at most [PW_BLOCKSIZE] elements: fewer than eight
    are added one by one from [-0.0]; otherwise the eight lanes are added
    up in pairs and the elements left over are added one by one. *)
Definition block_sum (a : list float) : float :=
  match a with
  | a0 :: a1 :: a2 :: a3 :: a4 :: a5 :: a6 :: a7 :: rest =>
      let (r, left_over) := unrolled (mkLanes a0 a1 a2 a3 a4 a5 a6 a7) rest in
      fold_left PrimFloat.add left_over
                (((r0 r + r1 r) + (r2 r + r3 r))
                 + ((r4 r + r5 r) + (r6 r + r7 r)))%float
  | _ => fold_left PrimFloat.add a (- 0)%float
  end.

Definition PW_BLOCKSIZE : nat := 128.

(** [pairwise_sum]: a block is summed by [block_sum]; a longer array is cut
    at half its length, rounded down to a multiple of eight, and the sums
    of the two parts are added.  [depth] bounds the number of cuts. *)
Fixpoint pairwise (depth : nat) (a : list float) : float :=
  let n := List.length a in
  if Nat.leb n PW_BLOCKSIZE then block_sum a
  else
    match depth with
    | O => block_sum a
    | S depth' =>
        let n2 := Nat.sub (Nat.div n 2) (Nat.modulo (Nat.div n 2) 8) in
        (pairwise depth' (firstn n2 a) + pairwise depth' (skipn n2 a))%float
    end.

(** The length of the array is more depth than the cuts need. *)
Definition pairwise_sum (a : list float) : float :=
  pairwise (List.length a) a.

(** [np.add.reduce] on the whole array: the pairwise sum is added to the
    identity of the addition. *)
Definition add_reduce (a : list float) : float :=
  (0 + pairwise_sum a)%float.

End Numpy.

Module Pandas.

Definition float_of_nat (n : nat) : float :=
  PrimFloat.of_uint63 (Uint63.of_Z (Z.of_nat n)).

(** [Series.sum()] of a float64 column without missing values: numpy's sum
    of the values; the empty sum is [0.0]. *)
Definition sum (values : list float) : float := Numpy.add_reduce values.

(** The state of a group in the groupby kernels [group_sum] and
    [group_mean]: the running sum, its compensation and the number of
    values seen. *)
Record Accumulator : Type := mkAccumulator {
  sumx : float;
  compensation : float;
  nobs : nat
}.

(** One value added to the state of its group, a Kahan summation step; a
    missing value, [val != val], is skipped, and a compensation that is not
    a number is reset. *)
Definition kahan_add (a : Accumulator) (val : float) : Accumulator :=
  if (val =? val)%float then
    let y := (val - compensation a)%float in
    let t := (sumx a + y)%float in
    let c := (t - sumx a - y)%float in
    mkAccumulator t (if (c =? c)%float then c else 0%float) (S (nobs a))
  else a.

(** [l[i] = f(l[i])] *)
Fixpoint update {A : Type} (i : nat) (f : A -> A) (l : list A) : list A :=
  match l, i with
  | [], _ => []
  | x :: l', O => f x :: l'
  | x :: l', S i' => x :: update i' f l'
  end.

(** The loop of the kernels: one pass over the rows of the frame, each
    value added to the state of the group its label names. *)
Definition accumulate (ngroups : nat) (values : list float)
    (labels : list nat) : list Accumulator :=
  fold_left (fun accs vl => update (snd vl) (fun a => kahan_add a (fst vl)) accs)
            (combine values labels)
            (repeat (mkAccumulator 0 0 0) ngroups).

(** [group_sum], with [min_count = 0]. *)
Definition group_sum (ngroups : nat) (values : list float)
    (labels : list nat) : list float :=
  map sumx (accumulate ngroups values labels).

(** [group_mean]: the sum of a group divided by the number of its values,
    NaN for a group without values. *)
Definition group_mean (ngroups : nat) (values : list float)
    (labels : list nat) : list float :=
  map (fun a => match nobs a with
                | O => nan
                | S _ => (sumx a / float_of_nat (nobs a))%float
                end)
      (accumulate ngroups values labels).

(** The ['last'] aggregation: the value of the last row of the group. *)
Definition last_value {A : Type} (values : list A) : option A :=
  last (map Some values) None.

Section Keyed.

Context {K : Type}.
Variable eqb : K -> K -> bool.
Variable leb : K -> K -> bool.

(** [Series.unique()]: the distinct values, in order of first
    appearance. *)
Fixpoint unique (values : list K) : list K :=
  match values with
  | [] => []
  | v :: values' => v :: filter (fun w => negb (eqb w v)) (unique values')
  end.

Fixpoint insert (v : K) (l : list K) : list K :=
  match l with
  | [] => [v]
  | w :: l' => if leb v w then v :: l else w :: insert v l'
  end.

(** Python's [sorted], a stable sort. *)
Definition sorted (values : list K) : list K :=
  fold_right insert [] values.

(** [df.groupby(key)]: the groups in ascending key order, each with its
    rows in the order of the frame. *)
Definition groupby {R : Type} (key : R -> K) (df : list R)
    : list (K * list R) :=
  map (fun k => (k, filter (fun r => eqb (key r) k) df))
      (sorted (unique (map key df))).

(** The place of a key among the sorted distinct keys. *)
Fixpoint index_of (k : K) (uniques : list K) : nat :=
  match uniques with
  | [] => O
  | u :: uniques' => if eqb u k then O else S (index_of k uniques')
  end.

(** The group labels of the rows, the codes of [factorize] with
    [sort=True]. *)
Definition codes {R : Type} (key : R -> K) (df : list R) : list nat :=
  map (fun r => index_of (key r) (sorted (unique (map key df)))) df.

End Keyed.

End Pandas.
Import Pandas.

(** ** Streamlit widgets *)

(** [st.selectbox(label, options)]: the option the user picked, the first
    one by default, [None] when there is nothing to pick. *)
Definition selectbox {A : Type} (options : list A) (picked : nat) : option A :=
  match nth_error options picked with
  | Some o => Some o
  | None => hd_error options
  end.

(** Truth value of a Python [str]. *)
Definition truthy (s : string) : bool := negb (s =? "")%string.

(** ** The date filter and the views *)

(** [data_df[(data_df['timestamp'].dt.date >= start_date)
            & (data_df['timestamp'].dt.date <= end_date)]] *)
Definition filtered_df (data_df : DataFrame) (start_date end_date : Date)
    : DataFrame :=
  filter (fun r => (date_of (timestamp r) >=? start_date)
                   && (date_of (timestamp r) <=? end_date)) data_df.

Definition total_energy (df : DataFrame) : float := sum (map energy_kwh df).
Definition total_bill (df : DataFrame) : float := sum (map bill_taka df).
Definition total_carbon (df : DataFrame) : float := sum (map carbon_gco2 df).

(** A row of [room_summaries]. *)
Record RoomSummary : Type := mkRoomSummary {
  rs_room_id : string;
  rs_power : float;
  rs_status : option string;
  rs_energy_kwh : float;
  rs_bill_taka : float;
  rs_carbon_gco2 : float
}.

(** A row of [room_summaries] from the group of a room, for ['last'], and
    from the aggregates of the kernels at the place of the group: the mean
    of [power] and the sums of [energy_kwh], [bill_taka] and
    [carbon_gco2]. *)
Definition summarise_room
    (row : (string * list Reading) * (float * (float * (float * float))))
    : RoomSummary :=
  let '((room, rows), (mean_power, (energy, (bill, carbon)))) := row in
  mkRoomSummary room mean_power (last_value (map status rows))
                energy bill carbon.

(** [filtered_df.groupby('room_id').agg({...}).reset_index()] *)
Definition room_summaries (filtered : DataFrame) : list RoomSummary :=
  let groups := groupby String.eqb String.leb room_id filtered in
  let labels := codes String.eqb String.leb room_id filtered in
  let ngroups := List.length groups in
  map summarise_room
      (combine groups
         (combine (group_mean ngroups (map power filtered) labels)
            (combine (group_sum ngroups (map energy_kwh filtered) labels)
               (combine (group_sum ngroups (map bill_taka filtered) labels)
                        (group_sum ngroups (map carbon_gco2 filtered)
                                   labels))))).

(** [filtered_df[filtered_df['floor'] == selected_floor]] *)
Definition floor_df (filtered : DataFrame) (selected_floor : option string)
    : DataFrame :=
  filter (fun r => match selected_floor with
                   | Some f => (floor r =? f)%string
                   | None => false
                   end) filtered.

(** [floor_df.groupby('timestamp')['power'].sum().reset_index()] *)
Definition floor_trend (fdf : DataFrame) : list (Timestamp * float) :=
  let groups := groupby Z.eqb Z.leb timestamp fdf in
  combine (map fst groups)
          (group_sum (List.length groups) (map power fdf)
                     (codes Z.eqb Z.leb timestamp fdf)).

(** [filtered_df[filtered_df['room_id'] == selected_room]] *)
Definition room_df (filtered : DataFrame) (selected_room : option string)
    : DataFrame :=
  filter (fun r => match selected_room with
                   | Some k => (room_id r =? k)%string
                   | None => false
                   end) filtered.

(** ** The device registry *)

(** A Python [dict] from room to device: unique keys, insertion order. *)
Module Dict.

Definition t := list (string * string).

Definition keys (d : t) : list string := map fst d.

Definition items (d : t) : list (string * string) := d.

Fixpoint get (k : string) (d : t) : option string :=
  match d with
  | [] => None
  | (k', v) :: d' => if (k =? k')%string then Some v else get k d'
  end.

Definition contains (k : string) (d : t) : bool :=
  match get k d with Some _ => true | None => false end.

(** [d[k] = v]: an existing key keeps its place. *)
Fixpoint set (k v : string) (d : t) : t :=
  match d with
  | [] => [(k, v)]
  | (k', v') :: d' =>
      if (k =? k')%string then (k, v) :: d' else (k', v') :: set k v d'
  end.

Fixpoint remove (k : string) (d : t) : t :=
  match d with
  | [] => []
  | (k', v') :: d' =>
      if (k =? k')%string then d' else (k', v') :: remove k d'
  end.

End Dict.

(** The exception a script run can end with. *)
Inductive Exception : Type :=
| KeyError (key : option string).

(** [del d[key]]; the key is what [st.selectbox] returned, so it may be
    [None]. *)
Definition delitem (key : option string) (d : Dict.t) : Exception + Dict.t :=
  match key with
  | Some k => if Dict.contains k d then inr (Dict.remove k d)
              else inl (KeyError key)
  | None => inl (KeyError None)
  end.

(** [{room: f'device_{room}' for room in data_df['room_id'].unique()}] *)
Definition initial_devices (data_df : DataFrame) : Dict.t :=
  fold_left (fun d room => Dict.set room ("device_" ++ room)%string d)
            (unique String.eqb (map room_id data_df)) [].

(** What a run of the script writes to the page; titles, headers and the
    widgets themselves are left out. *)
Inductive Element : Type :=
| Dataframe (rows : list (string * string))
| Success (body : string)
| Markdown (body : string)
| Caption (body : string)
| ExceptionBox (e : Exception).

(** The widget values of the Device Management view. *)
Record DeviceInput : Type := mkDeviceInput {
  new_room : string;
  new_device : string;
  add_clicked : bool;
  delete_picked : nat;
  delete_clicked : bool
}.

(** The state of a run: the registry, the page so far and the exception
    that ended the run, if any. *)
Record Run : Type := mkRun {
  devices : Dict.t;
  page : list Element;
  raised : option Exception
}.

(** The "Add/Update Device" block. *)
Definition add_update_device (inp : DeviceInput) (r : Run) : Run :=
  if add_clicked inp then
    if truthy (new_room inp) && truthy (new_device inp) then
      mkRun (Dict.set (new_room inp) (new_device inp) (devices r))
            (page r ++ [Success ("Added/Updated device " ++ new_device inp
                                 ++ " for room " ++ new_room inp)%string])
            (raised r)
    else r
  else r.

(** The "Delete Device" block. *)
Definition delete_device (inp : DeviceInput) (r : Run) : Run :=
  let delete_room := selectbox (Dict.keys (devices r)) (delete_picked inp) in
  if delete_clicked inp then
    match delitem delete_room (devices r) with
    | inl e => mkRun (devices r) (page r) (Some e)
    | inr d =>
        mkRun d
          (page r ++ [Success ("Deleted device for room "
                               ++ match delete_room with
                                  | Some k => k
                                  | None => "None"
                                  end)%string])
          (raised r)
    end
  else r.


(** The footer of the page. *)
Definition footer (r : Run) : Run :=
  mkRun (devices r)
        (page r ++ [Markdown "---";
                    Caption ("Demo project for CSE407 - Green Computing. "
                             ++ "Data is synthetic and simulated.")%string])
        (raised r).

(** Statements run in sequence: an exception ends the run. *)
Definition and_then (r : Run) (block : Run -> Run) : Run :=
  match raised r with
  | Some _ => r
  | None => block r
  end.

(** A run of the script with the Device Management view selected, on the
    registry of the session. *)
Definition device_management (inp : DeviceInput) (session : Dict.t) : Run :=
  let r := mkRun session [Dataframe (Dict.items session)] None in
  and_then (and_then (and_then r (add_update_device inp))
                     (delete_device inp))
           footer.

(** What the user sees of a run: Streamlit catches the exception a run ends
    with and shows it below what the run wrote before; the session and its
    state stay alive for the next run. *)
Definition rendered (r : Run) : list Element :=
  page r ++ match raised r with
            | Some e => [ExceptionBox e]
            | None => []
            end.

(** A run failed when it ended with an exception. *)
Definition failed (r : Run) : Prop := exists e, raised r = Some e.

(** The page of a run of the Device Management view in which nothing was
    added and nothing deleted. *)
Definition idle_page (session : Dict.t) : list Element :=
  page (footer (mkRun session [Dataframe (Dict.items session)] None)).

(** ** The options and the latest values of the views *)

(** The column of a tile: [cols[idx % 3]], [idx] being the row number of the
    tile in [room_summaries]. *)
Definition tile_columns (tiles : list RoomSummary) : list (nat * RoomSummary) :=
  combine (map (fun idx => Nat.modulo idx 3) (seq 0 (List.length tiles)))
          tiles.

(** The tiles written under [cols[column]], from top to bottom. *)
Definition tiles_of_column (column : nat) (tiles : list RoomSummary)
    : list RoomSummary :=
  map snd (filter (fun placed => Nat.eqb (fst placed) column)
                  (tile_columns tiles)).

(** [sorted(filtered_df['floor'].unique())], the options of "Select Floor". *)
Definition floor_options (filtered : DataFrame) : list string :=
  sorted String.leb (unique String.eqb (map floor filtered)).

(** [sorted(filtered_df['room_id'].unique())], the options of
    "Select Room". *)
Definition room_options (filtered : DataFrame) : list string :=
  sorted String.leb (unique String.eqb (map room_id filtered)).

(** What the Floor Summary view computes. *)
Record FloorSummary : Type := mkFloorSummary {
  fs_selected_floor : option string;
  fs_floor_df : DataFrame;
  fs_floor_energy : float;
  fs_floor_bill : float;
  fs_floor_carbon : float;
  fs_floor_trend : list (Timestamp * float)
}.

(** The Floor Summary view, [picked] being the choice made in
    "Select Floor". *)
Definition floor_summary (filtered : DataFrame) (picked : nat) : FloorSummary :=
  let selected_floor := selectbox (floor_options filtered) picked in
  let fdf := floor_df filtered selected_floor in
  mkFloorSummary selected_floor fdf
    (sum (map energy_kwh fdf))
    (sum (map bill_taka fdf))
    (sum (map carbon_gco2 fdf))
    (floor_trend fdf).

(** What the Room Details view computes when [room_df] is not empty. *)
Record RoomDetails : Type := mkRoomDetails {
  rd_selected_room : option string;
  rd_room_df : DataFrame;
  rd_latest : Reading;
  rd_total_energy : float;
  rd_total_bill : float;
  rd_total_carbon : float
}.

(** The Room Details view, [picked] being the choice made in "Select Room":
    [latest = room_df.iloc[-1]] under [if not room_df.empty], nothing
    otherwise. *)
Definition room_details (filtered : DataFrame) (picked : nat)
    : option RoomDetails :=
  let selected_room := selectbox (room_options filtered) picked in
  let rdf := room_df filtered selected_room in
  match last_value rdf with
  | None => None
  | Some latest =>
      Some (mkRoomDetails selected_room rdf latest
              (sum (map energy_kwh rdf))
              (sum (map bill_taka rdf))
              (sum (map carbon_gco2 rdf)))
  end.

(** The first and the last minute of the window of [generate_data] whose
    date lies in a range of dates. *)
Definition first_minute (start_date : Date) : Timestamp :=
  Z.max window_start (start_date * minutes_per_day).

Definition last_minute (end_date : Date) : Timestamp :=
  Z.min window_end (end_date * minutes_per_day + (minutes_per_day - 1)).

(** The minutes of the window whose date lies in the range, in order. *)
Definition minutes_shown (start_date end_date : Date) : list Timestamp :=
  date_range (first_minute start_date) (last_minute end_date).

(** The number of days of the window that lie in the range. *)
Definition days_shown (start_date end_date : Date) : Z :=
  Z.max 0 (Z.min end_date (date 2025 11 23)
           - Z.max start_date (date 2025 11 1) + 1).

(** A float lies in [lo, hi). *)
Definition in_range (lo hi x : float) : Prop :=
  (lo <=? x)%float = true /\ (x <? hi)%float = true.

(** A reading with no current and nothing consumed. *)
Definition idle (r : Reading) : Prop :=
  current r = 0%float /\ power r = 0%float /\ energy_kwh r = 0%float
  /\ bill_taka r = 0%float /\ carbon_gco2 r = 0%float.

(** ** Vocabulary of the properties *)

(** The key of a reading: its room and its minute. *)
Definition key_of (r : Reading) : string * Timestamp :=
  (room_id r, timestamp r).

(** The derived fields of a reading follow from its voltage and current. *)
Definition derived (r : Reading) : Prop :=
  power r = (voltage r * current r)%float
  /\ energy_kwh r = (power r / 1000 / 60)%float
  /\ bill_taka r = (energy_kwh r * 5)%float
  /\ carbon_gco2 r = (energy_kwh r * 500)%float.

(** The same under Python's [==] on floats. *)
Definition derived_eq (r : Reading) : Prop :=
  (power r =? voltage r * current r)%float = true
  /\ (energy_kwh r =? power r / 1000 / 60)%float = true
  /\ (bill_taka r =? energy_kwh r * 5)%float = true
  /\ (carbon_gco2 r =? energy_kwh r * 500)%float = true.

(** A float that is not NaN, and one that is neither NaN nor infinite. *)
Definition is_number (x : float) : Prop := Prim2SF x <> S754_nan.

Definition is_finite (x : float) : Prop :=
  match Prim2SF x with
  | S754_zero _ | S754_finite _ _ _ => True
  | _ => False
  end.

(** The sum of the values of a group as binary64 arithmetic gives it when
    every value is added with the compensation of Kahan: the rounding error
    of an addition is taken off the next value.  Values that are not
    numbers are left out. *)
Fixpoint compensated_from (s c : float) (values : list float) : float :=
  match values with
  | [] => s
  | v :: values' =>
      if (v =? v)%float then
        let y := (v - c)%float in
        let t := (s + y)%float in
        let c' := (t - s - y)%float in
        compensated_from t (if (c' =? c')%float then c' else 0%float) values'
      else compensated_from s c values'
  end.

Definition compensated_sum (values : list float) : float :=
  compensated_from 0 0 values.

(** The number of values that are numbers. *)
Definition observed (values : list float) : nat :=
  List.length (filter (fun v => (v =? v)%float) values).

(** The mean of the values of a group: their compensated sum divided by
    their number. *)
Definition compensated_mean (values : list float) : float :=
  match observed values with
  | O => nan
  | S _ => (compensated_sum values / float_of_nat (observed values))%float
  end.

(** The hour of an instant lies in the operating hours, [8, 20). *)
Definition operating (t : Timestamp) : Prop := 8 <= hour t < 20.

(** [room[0]], as a string. *)
Definition first_char (s : string) : string := substring 0 1 s.

(** The rooms of a floor. *)
Definition rooms_of_floor (f : string) : list string :=
  filter (fun room => (first_char room =? f)%string) rooms.

(** Of two readings of one room, the first is the earlier one. *)
Definition earlier_in_room (r1 r2 : Reading) : Prop :=
  room_id r1 = room_id r2 -> timestamp r1 < timestamp r2.

(** The date of a reading lies in the range picked in the sidebar. *)
Definition within (start_date end_date : Date) (r : Reading) : Prop :=
  start_date <= date_of (timestamp r) <= end_date.

(** The three totals of the Building Overview are zero. *)
Definition zero_totals (df : DataFrame) : Prop :=
  total_energy df = 0%float /\ total_bill df = 0%float
  /\ total_carbon df = 0%float.

(** The first terms of the harmonic series, to try the sums on. *)
Definition harmonic (n : nat) : list float :=
  map (fun k => (1 / float_of_nat k)%float) (seq 1 n).

(** * Properties *)

(** ** The generator *)

Section GeneratorFacts.

Context {RandomState : Type}.
Variable uniform : float -> float -> RandomState -> float * RandomState.

Lemma reading_at_key room fl d g :
  let r := fst (reading_at uniform room fl d g) in
  timestamp r = d /\ room_id r = room /\ floor r = fl.
Proof.
  unfold reading_at.
  destruct (uniform 220 240 g) as [v g1].
  destruct ((8 <=? hour d) && (hour d <? 20));
    [destruct (uniform 5 10 g1) as [c g2] |]; cbn; auto.
Qed.

Lemma reading_at_derived room fl d g :
  derived (fst (reading_at uniform room fl d g)).
Proof.
  unfold reading_at, derived.
  destruct (uniform 220 240 g) as [v g1].
  destruct ((8 <=? hour d) && (hour d <? 20));
    [destruct (uniform 5 10 g1) as [c g2] |]; cbn; auto.
Qed.

Lemma reading_at_status room fl d g :
  let r := fst (reading_at uniform room fl d g) in
  (status r = "off" <-> ~ (8 <= hour d < 20))
  /\ (status r = "on" <-> 8 <= hour d < 20).
Proof.
  unfold reading_at.
  destruct (uniform 220 240 g) as [v g1].
  destruct ((8 <=? hour d) && (hour d <? 20));
    [destruct (uniform 5 10 g1) as [c g2] |]; cbn [fst status];
    (destruct (hour d <? 8) eqn:Hlo; destruct (20 <=? hour d) eqn:Hhi;
     cbn [orb]; split; split; intros H; try discriminate; try reflexivity;
     try lia).
Qed.

Lemma reading_at_current room fl d g :
  let r := fst (reading_at uniform room fl d g) in
  (8 <= hour d < 20 ->
   exists g1, current r = fst (uniform 5 10 g1))
  /\ (~ (8 <= hour d < 20) -> current r = 0%float).
Proof.
  unfold reading_at.
  destruct (uniform 220 240 g) as [v g1].
  destruct ((8 <=? hour d) && (hour d <? 20)) eqn:Hop.
  - destruct (uniform 5 10 g1) as [c g2] eqn:Hc; cbn [fst current].
    split; [intros _; exists g1; now rewrite Hc | intros H; lia].
  - cbn [fst current]. split; [intros H; lia | reflexivity].
Qed.

Lemma reading_at_voltage room fl d g :
  voltage (fst (reading_at uniform room fl d g)) = fst (uniform 220 240 g).
Proof.
  unfold reading_at.
  destruct (uniform 220 240 g) as [v g1].
  destruct ((8 <=? hour d) && (hour d <? 20));
    [destruct (uniform 5 10 g1) as [c g2] |]; reflexivity.
Qed.

(** Every row of the inner loop is the loop body at one of the dates. *)
Lemma for_dates_In room fl dates : forall g r,
  In r (fst (for_dates uniform room fl dates g)) ->
  exists d g0, In d dates /\ r = fst (reading_at uniform room fl d g0).
Proof.
  induction dates as [|d dates IH]; intros g r; cbn [for_dates].
  - intros [].
  - destruct (reading_at uniform room fl d g) as [row g1] eqn:Hrow.
    destruct (for_dates uniform room fl dates g1) as [rows g2] eqn:Hrows.
    cbn [fst]. intros [<- | Hin].
    + exists d, g. split; [now left | now rewrite Hrow].
    + specialize (IH g1 r). rewrite Hrows in IH.
      destruct (IH Hin) as (d' & g0 & Hd & Hr).
      exists d', g0. split; [now right | exact Hr].
Qed.

Lemma for_dates_keys room fl dates : forall g,
  map key_of (fst (for_dates uniform room fl dates g))
  = map (fun d => (room, d)) dates.
Proof.
  induction dates as [|d dates IH]; intros g; cbn [for_dates].
  - reflexivity.
  - destruct (reading_at uniform room fl d g) as [row g1] eqn:Hrow.
    specialize (IH g1).
    destruct (for_dates uniform room fl dates g1) as [rows g2].
    cbn [fst map] in *. rewrite IH. f_equal.
    pose proof (reading_at_key room fl d g) as Hk.
    rewrite Hrow in Hk. cbn [fst] in Hk.
    destruct Hk as (Ht & Hroom & _). unfold key_of. now rewrite Ht, Hroom.
Qed.

Lemma for_rooms_In pairs dates : forall g r,
  In r (fst (for_rooms uniform pairs dates g)) ->
  exists room fl d g0,
    In (room, fl) pairs /\ In d dates
    /\ r = fst (reading_at uniform room fl d g0).
Proof.
  induction pairs as [|[room fl] pairs IH]; intros g r; cbn [for_rooms].
  - intros [].
  - destruct (for_dates uniform room fl dates g) as [rows g1] eqn:Hrows.
    destruct (for_rooms uniform pairs dates g1) as [rest g2] eqn:Hrest.
    cbn [fst]. rewrite in_app_iff. intros [Hin | Hin].
    + pose proof (for_dates_In room fl dates g r) as H.
      rewrite Hrows in H. destruct (H Hin) as (d & g0 & Hd & Hr).
      exists room, fl, d, g0. repeat split; [now left | exact Hd | exact Hr].
    + specialize (IH g1 r). rewrite Hrest in IH.
      destruct (IH Hin) as (room' & fl' & d & g0 & Hp & Hd & Hr).
      exists room', fl', d, g0. repeat split; [now right | exact Hd | exact Hr].
Qed.

Lemma for_rooms_keys pairs dates : forall g,
  map key_of (fst (for_rooms uniform pairs dates g))
  = list_prod (map fst pairs) dates.
Proof.
  induction pairs as [|[room fl] pairs IH]; intros g; cbn [for_rooms].
  - reflexivity.
  - pose proof (for_dates_keys room fl dates g) as Hk.
    destruct (for_dates uniform room fl dates g) as [rows g1].
    specialize (IH g1).
    destruct (for_rooms uniform pairs dates g1) as [rest g2].
    cbn [fst map list_prod] in *. now rewrite map_app, Hk, IH.
Qed.

(** A row of the table is the loop body at one of the nine rooms and at a
    minute of the window. *)
Lemma generate_table_In start_date end_date g r :
  In r (generate_table uniform start_date end_date g) ->
  exists room fl d g0,
    In (room, fl) (combine rooms floors)
    /\ start_date <= d <= end_date
    /\ r = fst (reading_at uniform room fl d g0).
Proof.
  unfold generate_table. intros Hin.
  apply for_rooms_In in Hin.
  destruct Hin as (room & fl & d & g0 & Hp & Hd & Hr).
  exists room, fl, d, g0. repeat split; try assumption;
    unfold date_range in Hd; apply in_map_iff in Hd;
    destruct Hd as (k & <- & Hk); apply in_seq in Hk; lia.
Qed.

Lemma generate_table_keys start_date end_date g :
  map key_of (generate_table uniform start_date end_date g)
  = list_prod rooms (date_range start_date end_date).
Proof.
  unfold generate_table. now rewrite for_rooms_keys.
Qed.

Lemma reading_at_floor room fl d g :
  In (room, fl) (combine rooms floors) ->
  floor (fst (reading_at uniform room fl d g))
  = first_char (room_id (fst (reading_at uniform room fl d g))).
Proof.
  intros Hp.
  destruct (reading_at_key room fl d g) as (_ & -> & ->).
  cbn in Hp.
  repeat (destruct Hp as [Hp | Hp];
          [injection Hp as <- <-; reflexivity |]).
  destruct Hp.
Qed.

End GeneratorFacts.

(** ** The window *)

Lemma date_range_In start_date end_date d :
  In d (date_range start_date end_date) <-> start_date <= d <= end_date.
Proof.
  unfold date_range. rewrite in_map_iff. split.
  - intros (k & <- & Hk). apply in_seq in Hk. lia.
  - intros H. exists (Z.to_nat (d - start_date)). split; [lia |].
    apply in_seq. lia.
Qed.

Lemma date_range_length start_date end_date :
  start_date <= end_date ->
  Z.of_nat (List.length (date_range start_date end_date))
  = end_date - start_date + 1.
Proof.
  intros H. unfold date_range. rewrite length_map, length_seq. lia.
Qed.

Lemma date_range_ascending start_date end_date :
  StronglySorted Z.lt (date_range start_date end_date).
Proof.
  unfold date_range.
  generalize (Z.to_nat (end_date - start_date + 1)) as n.
  generalize 0%nat as k.
  intros k n. revert k.
  induction n as [|n IH]; intros k; cbn [seq map]; constructor.
  - apply IH.
  - apply Forall_forall. intros d Hd. apply in_map_iff in Hd.
    destruct Hd as (j & <- & Hj). apply in_seq in Hj. lia.
Qed.

Lemma ascending_NoDup (l : list Z) : StronglySorted Z.lt l -> NoDup l.
Proof.
  induction 1 as [|a l _ IH Ha]; constructor; [| exact IH].
  intros Hin. rewrite Forall_forall in Ha. specialize (Ha a Hin). lia.
Qed.

Lemma NoDup_list_prod {A B : Type} (l : list A) (l' : list B) :
  NoDup l -> NoDup l' -> NoDup (list_prod l l').
Proof.
  intros Hl Hl'. induction Hl as [|a l Ha _ IH]; cbn [list_prod].
  - constructor.
  - apply NoDup_app.
    + apply Finite.Injective_map_NoDup; [| exact Hl'].
      intros x y Hxy. now injection Hxy.
    + exact IH.
    + intros [x y] Hin1 Hin2. apply in_map_iff in Hin1.
      destruct Hin1 as (y' & Hy' & _). injection Hy' as <- <-.
      apply in_prod_iff in Hin2. now destruct Hin2.
Qed.

Lemma rooms_NoDup : NoDup rooms.
Proof.
  unfold rooms.
  repeat (constructor;
          [cbn; intros H;
           repeat (destruct H as [H | H]; [discriminate H |]); exact H |]).
  constructor.
Qed.

Lemma window_nonempty : window_start <= window_end.
Proof. vm_compute. discriminate. Qed.

(** Five is at most the draw, so the draw is not zero under [==]. *)
Lemma at_least_five_nonzero (x : float) :
  (5 <=? x)%float = true -> (x =? 0)%float = false.
Proof.
  rewrite FloatAxioms.leb_spec, FloatAxioms.eqb_spec.
  destruct (Prim2SF x) as [s | s | | s m e]; vm_compute; try congruence.
  all: destruct s; congruence.
Qed.

(** ** Binary64 arithmetic never yields NaN on the values of the table *)

Section Rounding.

Variable prec emax : Z.

Lemma shr_1_nonneg mrs : 0 <= shr_m mrs -> 0 <= shr_m (shr_1 mrs).
Proof.
  destruct mrs as [m r s]. cbn [shr_m shr_1].
  destruct m as [|p|p]; [| destruct p | destruct p]; cbn [shr_m]; lia.
Qed.

Lemma iter_shr_1_nonneg p : forall mrs,
  0 <= shr_m mrs -> 0 <= shr_m (iter_pos shr_1 p mrs).
Proof.
  induction p as [p IH | p IH |]; intros mrs H; cbn [iter_pos].
  - apply IH, IH, shr_1_nonneg, H.
  - apply IH, IH, H.
  - apply shr_1_nonneg, H.
Qed.

Lemma shr_fexp_nonneg m e l :
  0 <= m -> 0 <= shr_m (fst (shr_fexp prec emax m e l)).
Proof.
  intros H. unfold shr_fexp, shr.
  assert (H0 : 0 <= shr_m (shr_record_of_loc m l))
    by (destruct l as [|[]]; exact H).
  destruct (fexp prec emax (Zdigits2 m + e) - e); cbn [fst]; try exact H0.
  now apply iter_shr_1_nonneg.
Qed.

Lemma round_nearest_even_nonneg m l :
  0 <= m -> 0 <= round_nearest_even m l.
Proof.
  intros H. destruct l as [|[]]; cbn [round_nearest_even]; try lia.
  destruct (Z.even m); lia.
Qed.

Lemma binary_round_aux_number s m e l :
  0 <= m -> binary_round_aux prec emax s m e l <> S754_nan.
Proof.
  intros H. unfold binary_round_aux.
  pose proof (shr_fexp_nonneg m e l H) as H1.
  destruct (shr_fexp prec emax m e l) as [mrs1 e1]. cbn [fst] in H1.
  pose proof (shr_fexp_nonneg _ e1 loc_Exact
                (round_nearest_even_nonneg _ (loc_of_shr_record mrs1) H1)) as H2.
  destruct (shr_fexp prec emax _ e1 loc_Exact) as [mrs2 e2]. cbn [fst] in H2.
  destruct (shr_m mrs2) as [|p|p]; [discriminate | | lia].
  destruct (e2 <=? emax - prec); discriminate.
Qed.

End Rounding.

Lemma eqb_refl_number x : is_number x -> (x =? x)%float = true.
Proof.
  unfold is_number. rewrite FloatAxioms.eqb_spec.
  destruct (Prim2SF x) as [s | s | | s m e]; intros H; try congruence.
  - reflexivity.
  - now destruct s.
  - unfold SFeqb, SFcompare.
    rewrite Z.compare_refl, Pos.compare_cont_refl. now destruct s.
Qed.

Lemma mul_finite_number x y :
  is_finite x -> is_finite y -> is_number (x * y).
Proof.
  unfold is_finite, is_number. rewrite FloatAxioms.mul_spec.
  destruct (Prim2SF x) as [sx | sx | | sx mx ex]; try tauto;
    destruct (Prim2SF y) as [sy | sy | | sy my ey]; try tauto; intros _ _;
    try discriminate.
  apply binary_round_aux_number. lia.
Qed.

Lemma div_number x y :
  is_number x -> (exists s m e, Prim2SF y = S754_finite s m e) -> is_number (x / y).
Proof.
  unfold is_number. rewrite FloatAxioms.div_spec.
  intros Hx (s & m & e & ->).
  destruct (Prim2SF x) as [sx | sx | | sx mx ex]; try congruence; try discriminate.
  unfold SF64div, SFdiv.
  destruct (SFdiv_core_binary prec emax (Z.pos mx) ex (Z.pos m) e) as [[mz ez] lz] eqn:E.
  apply binary_round_aux_number.
  unfold SFdiv_core_binary in E.
  match type of E with
  | (let '(q, r) := Z.div_eucl ?a ?b in _) = _ =>
      assert (Ha : 0 <= a);
      [| pose proof (Z_div_mod a b eq_refl) as Hdm;
         destruct (Z.div_eucl a b) as [q r]]
  end.
  - match goal with
    | |- 0 <= match ?s with _ => _ end => destruct s eqn:Es
    end; try lia.
    apply Z.shiftl_nonneg. lia.
  - injection E as <- _ _. nia.
Qed.

Lemma mul_number x y :
  is_number x -> (exists s m e, Prim2SF y = S754_finite s m e) -> is_number (x * y).
Proof.
  unfold is_number. rewrite FloatAxioms.mul_spec.
  intros Hx (s & m & e & ->).
  destruct (Prim2SF x) as [sx | sx | | sx mx ex]; try congruence; try discriminate.
  apply binary_round_aux_number. lia.
Qed.

Lemma in_range_finite lo hi x :
  is_finite lo -> is_finite hi ->
  (lo <=? x)%float = true -> (x <? hi)%float = true -> is_finite x.
Proof.
  unfold is_finite. rewrite FloatAxioms.leb_spec, FloatAxioms.ltb_spec.
  destruct (Prim2SF x) as [sx | sx | | sx mx ex]; try tauto;
    destruct (Prim2SF lo) as [sl | sl | | sl ml el]; try tauto;
    destruct (Prim2SF hi) as [sh | sh | | sh mh eh]; try tauto;
    intros _ _; cbn; try discriminate; destruct sx; discriminate.
Qed.

(** The generator used in the examples draws within range. *)
Lemma Lcg_next_range g : 0 <= Lcg.next g < Lcg.modulus.
Proof. unfold Lcg.next. apply Z.mod_pos_bound. reflexivity. Qed.

Lemma Lcg_scale_in_range :
  forallb (fun k => ((5 <=? Lcg.scale 5 10 (Z.of_nat k))
                     && (Lcg.scale 5 10 (Z.of_nat k) <? 10))%float)
          (seq 0 (Z.to_nat Lcg.modulus)) = true.
Proof. vm_compute. reflexivity. Qed.

Lemma Lcg_uniform_in_range : uniform_in_range Lcg.uniform 5 10.
Proof.
  intros g. unfold Lcg.uniform. cbn [fst].
  pose proof (Lcg_next_range g) as Hg.
  pose proof Lcg_scale_in_range as H.
  rewrite forallb_forall in H.
  specialize (H (Z.to_nat (Lcg.next g))).
  rewrite Z2Nat.id in H by lia.
  apply andb_true_iff. apply H. apply in_seq. lia.
Qed.

(** ** The claims on the generator *)

Section GeneratorClaims.

Context {RandomState : Type}.
Variable uniform : float -> float -> RandomState -> float * RandomState.

(** C1. In every reading of the generated table, [current == 0] exactly
    when [status == "off"], and both exactly when the hour of the
    timestamp is outside [8, 20); the draw of the current is assumed to
    lie in its range [5, 10). *)
Theorem current_zero_iff_status_off (g : RandomState) :
  uniform_in_range uniform 5 10 ->
  Forall (fun r =>
            ((current r =? 0)%float = true <-> status r = "off")
            /\ (status r = "off" <-> ~ operating (timestamp r))
            /\ ((current r =? 0)%float = true <-> ~ operating (timestamp r)))
         (generate_data uniform g).
Proof.
  intros Hu. apply Forall_forall. intros r Hin.
  apply generate_table_In in Hin.
  destruct Hin as (room & fl & d & g0 & _ & _ & ->).
  destruct (reading_at_key uniform room fl d g0) as (Ht & _).
  destruct (reading_at_status uniform room fl d g0) as (Hoff & _).
  destruct (reading_at_current uniform room fl d g0) as (Hon & Hzero).
  cbv zeta in *. rewrite Ht. unfold operating.
  assert (Hc : (current (fst (reading_at uniform room fl d g0)) =? 0)%float
               = true <-> ~ (8 <= hour d < 20)).
  { split.
    - intros Heq Hop. destruct (Hon Hop) as (g1 & Hdraw).
      rewrite Hdraw in Heq.
      destruct (Hu g1) as (Hlo & _).
      apply at_least_five_nonzero in Hlo. congruence.
    - intros Hnop. now rewrite (Hzero Hnop). }
  repeat split; try tauto.
Qed.

(** C2. In every reading of the generated table, [power] is
    [voltage * current], [energy_kwh] is [power / 1000 / 60], [bill_taka]
    is [energy_kwh * 5] and [carbon_gco2] is [energy_kwh * 500], each the
    very binary64 value the expression evaluates to. *)
Theorem generated_fields_derived (g : RandomState) :
  Forall derived (generate_data uniform g).
Proof.
  apply Forall_forall. intros r Hin.
  apply generate_table_In in Hin.
  destruct Hin as (room & fl & d & g0 & _ & _ & ->).
  apply reading_at_derived.
Qed.

(** The derived fields are also equal to their expressions under Python's
    [==], which NaN alone would break: with both draws in their ranges no
    field is NaN. *)
Lemma generated_fields_equal (g : RandomState) :
  uniform_in_range uniform 220 240 -> uniform_in_range uniform 5 10 ->
  Forall derived_eq (generate_data uniform g).
Proof.
  intros Hv Hc. apply Forall_forall. intros r Hin.
  apply generate_table_In in Hin.
  destruct Hin as (room & fl & d & g0 & _ & _ & ->).
  pose proof (reading_at_derived uniform room fl d g0) as (Hp & He & Hb & Hk).
  pose proof (reading_at_voltage uniform room fl d g0) as Hvolt.
  destruct (reading_at_current uniform room fl d g0) as (Hon & Hoff).
  cbv zeta in Hon, Hoff.
  set (r := fst (reading_at uniform room fl d g0)) in *.
  assert (Hfv : is_finite (voltage r)).
  { rewrite Hvolt. destruct (Hv g0) as (Hlo & Hhi).
    now apply (in_range_finite 220 240). }
  assert (Hfc : is_finite (current r)).
  { destruct (Z_le_dec 8 (hour d)) as [H8 |];
      [destruct (Z_lt_dec (hour d) 20) as [H20 |] |].
    - destruct (Hon (conj H8 H20)) as (g1 & ->).
      destruct (Hc g1) as (Hlo & Hhi). now apply (in_range_finite 5 10).
    - rewrite Hoff by lia. exact I.
    - rewrite Hoff by lia. exact I. }
  assert (Hnp : is_number (power r))
    by (rewrite Hp; now apply mul_finite_number).
  assert (Hne : is_number (energy_kwh r)).
  { rewrite He. apply div_number; [apply div_number; [exact Hnp |] |];
      vm_compute; eauto. }
  assert (Hnb : is_number (bill_taka r))
    by (rewrite Hb; apply mul_number; [exact Hne | vm_compute; eauto]).
  assert (Hnk : is_number (carbon_gco2 r))
    by (rewrite Hk; apply mul_number; [exact Hne | vm_compute; eauto]).
  unfold derived_eq. rewrite <- Hp, <- He, <- Hb, <- Hk.
  repeat split; now apply eqb_refl_number.
Qed.

(** C3. For a window with [start_date <= end_date], the table has exactly
    one reading per room of the nine and minute of the window, in the
    order of the cross product; it has
    [9 * (end_date - start_date + 1)] rows, whatever the state of the
    random generator, so two generations have the same number of rows. *)
Theorem one_reading_per_room_and_minute (start_date end_date : Timestamp)
    (g : RandomState) :
  start_date <= end_date ->
  let table := generate_table uniform start_date end_date g in
  map key_of table = list_prod rooms (date_range start_date end_date)
  /\ NoDup (map key_of table)
  /\ (forall room t, In (room, t) (map key_of table)
                     <-> In room rooms /\ start_date <= t <= end_date)
  /\ List.length rooms = 9%nat
  /\ Z.of_nat (List.length table) = 9 * (end_date - start_date + 1)
  /\ (forall g', List.length (generate_table uniform start_date end_date g')
                 = List.length table).
Proof.
  intros Hle table.
  assert (Hk : forall g', map key_of
                 (generate_table uniform start_date end_date g')
               = list_prod rooms (date_range start_date end_date))
    by (intros g'; apply generate_table_keys).
  assert (Hlen : forall g', Z.of_nat (List.length
                   (generate_table uniform start_date end_date g'))
                 = 9 * (end_date - start_date + 1)).
  { intros g'. rewrite <- (length_map key_of), Hk, length_prod.
    rewrite Nat2Z.inj_mul, date_range_length by exact Hle. reflexivity. }
  subst table. rewrite Hk.
  split; [reflexivity |]. split.
  { apply NoDup_list_prod; [apply rooms_NoDup |].
    apply ascending_NoDup, date_range_ascending. }
  split.
  { intros room t. rewrite in_prod_iff, date_range_In. tauto. }
  split; [reflexivity |]. split; [apply Hlen |].
  intros g'. apply Nat2Z.inj. now rewrite !Hlen.
Qed.

(** C10. In every reading of the generated table the floor is the first
    character of the room; rooms 101 to 103 are on floor 1, 201 to 203 on
    floor 2 and 301 to 303 on floor 3, so the rooms that occur with a
    floor are three for each of the three floors. *)
Theorem floor_is_first_char_of_room (g : RandomState) :
  let table := generate_data uniform g in
  Forall (fun r => floor r = first_char (room_id r)) table
  /\ rooms_of_floor "1" = ["101"; "102"; "103"]
  /\ rooms_of_floor "2" = ["201"; "202"; "203"]
  /\ rooms_of_floor "3" = ["301"; "302"; "303"]
  /\ (forall f room,
        (exists r, In r table /\ floor r = f /\ room_id r = room)
        <-> In room (rooms_of_floor f))
  /\ (forall f, In f floors -> List.length (rooms_of_floor f) = 3%nat).
Proof.
  intros table.
  assert (Hfloor : Forall (fun r => floor r = first_char (room_id r)) table).
  { apply Forall_forall. intros r Hin.
    apply generate_table_In in Hin.
    destruct Hin as (room & fl & d & g0 & Hp & _ & ->).
    now apply reading_at_floor. }
  split; [exact Hfloor |].
  do 3 (split; [reflexivity |]).
  split.
  - intros f room. unfold rooms_of_floor. rewrite filter_In. split.
    + intros (r & Hin & Hf & Hroom).
      rewrite Forall_forall in Hfloor. specialize (Hfloor r Hin).
      assert (Hkey : In (key_of r) (map key_of table)) by now apply in_map.
      unfold table, generate_data in Hkey.
      rewrite generate_table_keys in Hkey.
      unfold key_of in Hkey. apply in_prod_iff in Hkey.
      rewrite Hroom in Hkey, Hfloor. split; [tauto |].
      apply String.eqb_eq. congruence.
    + intros (Hroom & Hf). apply String.eqb_eq in Hf.
      assert (Hkey : In (room, window_start) (map key_of table)).
      { unfold table, generate_data. rewrite generate_table_keys.
        apply in_prod_iff. split; [exact Hroom |].
        apply date_range_In. pose proof window_nonempty. lia. }
      apply in_map_iff in Hkey. destruct Hkey as (r & Hkey & Hin).
      injection Hkey as Hr _.
      rewrite Forall_forall in Hfloor. specialize (Hfloor r Hin).
      exists r. repeat split; [exact Hin | congruence | exact Hr].
  - intros f Hf. cbn in Hf.
    repeat (destruct Hf as [<- | Hf]; [reflexivity |]). destruct Hf.
Qed.

End GeneratorClaims.

(** ** Lists *)

Lemma filter_partition_Permutation {A : Type} (f : A -> bool) (l : list A) :
  Permutation l (filter f l ++ filter (fun x => negb (f x)) l).
Proof.
  induction l as [|a l IH]; cbn [filter]; [constructor |].
  destruct (f a); cbn [negb app].
  - now constructor.
  - now apply Permutation_cons_app.
Qed.

Lemma filter_all {A : Type} (f : A -> bool) (l : list A) :
  Forall (fun x => f x = true) l -> filter f l = l.
Proof.
  induction 1 as [|a l Ha _ IH]; cbn [filter]; [reflexivity |].
  now rewrite Ha, IH.
Qed.

Lemma filter_none {A : Type} (f : A -> bool) (l : list A) :
  Forall (fun x => f x = false) l -> filter f l = [].
Proof.
  induction 1 as [|a l Ha _ IH]; cbn [filter]; [reflexivity |].
  now rewrite Ha, IH.
Qed.

Lemma StronglySorted_app {A : Type} (R : A -> A -> Prop) (l1 l2 : list A) :
  StronglySorted R l1 -> StronglySorted R l2 ->
  (forall x y, In x l1 -> In y l2 -> R x y) ->
  StronglySorted R (l1 ++ l2).
Proof.
  induction 1 as [|a l1 _ IH Ha]; intros H2 Hx; cbn [app]; [exact H2 |].
  constructor.
  - apply IH; [exact H2 |]. intros x y Hin. apply Hx. now right.
  - apply Forall_app. split; [exact Ha |].
    apply Forall_forall. intros y Hy. apply Hx; [now left | exact Hy].
Qed.

Lemma StronglySorted_filter {A : Type} (R : A -> A -> Prop) (f : A -> bool)
    (l : list A) :
  StronglySorted R l -> StronglySorted R (filter f l).
Proof.
  induction 1 as [|a l _ IH Ha]; cbn [filter]; [constructor |].
  destruct (f a); [| exact IH].
  constructor; [exact IH |].
  apply Forall_forall. intros y Hy. apply filter_In in Hy.
  rewrite Forall_forall in Ha. now apply Ha.
Qed.

Lemma StronglySorted_map_inv {A B : Type} (R : B -> B -> Prop) (f : A -> B)
    (l : list A) :
  StronglySorted R (map f l) -> StronglySorted (fun x y => R (f x) (f y)) l.
Proof.
  induction l as [|a l IH]; cbn [map]; intros H; [constructor |].
  apply StronglySorted_inv in H. destruct H as (Hl & Ha).
  constructor; [now apply IH |].
  apply (proj1 (Forall_map f (R (f a)) l)). exact Ha.
Qed.

Lemma StronglySorted_map {A B : Type} (R : B -> B -> Prop) (f : A -> B)
    (l : list A) :
  StronglySorted (fun x y => R (f x) (f y)) l -> StronglySorted R (map f l).
Proof.
  induction 1 as [|a l _ IH Ha]; cbn [map]; constructor; [exact IH |].
  apply (proj2 (Forall_map f (R (f a)) l)). exact Ha.
Qed.

(** The last element of a strongly sorted list is above all the others. *)
Lemma StronglySorted_last {A : Type} (R : A -> A -> Prop) (l : list A) (z : A) :
  StronglySorted R (l ++ [z]) -> Forall (fun x => R x z) l.
Proof.
  induction l as [|a l IH]; cbn [app]; intros H; [constructor |].
  apply StronglySorted_inv in H. destruct H as (Hl & Ha).
  constructor; [| now apply IH].
  rewrite Forall_forall in Ha. apply Ha, in_or_app. right. now left.
Qed.

Lemma last_value_snoc {A : Type} (l : list A) (z : A) :
  last_value (l ++ [z]) = Some z.
Proof.
  unfold last_value. rewrite map_app. cbn [map]. apply last_last.
Qed.

Lemma snoc_of_nonempty {A : Type} (l : list A) :
  l <> [] -> exists l' z, l = l' ++ [z].
Proof.
  intros H. destruct (exists_last H) as (l' & z & ->). now exists l', z.
Qed.

(** ** The pandas operations *)

Section KeyedFacts.

Context {K : Type}.
Variable eqb : K -> K -> bool.
Variable leb : K -> K -> bool.
Hypothesis eqb_eq : forall x y, eqb x y = true <-> x = y.

Lemma unique_In (x : K) (l : list K) : In x (unique eqb l) <-> In x l.
Proof.
  induction l as [|v l IH]; cbn [unique]; [reflexivity |].
  cbn [In]. rewrite filter_In, IH. split.
  - intros [H | (H & _)]; auto.
  - intros [H | H]; [now left |].
    destruct (eqb x v) eqn:E.
    + left. symmetry. now apply eqb_eq.
    + right. now split.
Qed.

Lemma unique_NoDup (l : list K) : NoDup (unique eqb l).
Proof.
  induction l as [|v l IH]; cbn [unique]; constructor.
  - rewrite filter_In. intros (_ & H).
    assert (E : eqb v v = true) by now apply eqb_eq.
    rewrite E in H. discriminate.
  - now apply NoDup_filter.
Qed.

Lemma insert_Permutation (v : K) (l : list K) :
  Permutation (insert leb v l) (v :: l).
Proof.
  induction l as [|w l IH]; cbn [insert]; [reflexivity |].
  destruct (leb v w); [reflexivity |].
  rewrite IH. apply perm_swap.
Qed.

Lemma sorted_Permutation (l : list K) : Permutation (sorted leb l) l.
Proof.
  induction l as [|v l IH]; cbn [sorted fold_right]; [constructor |].
  rewrite insert_Permutation. now constructor.
Qed.

Lemma sorted_In (x : K) (l : list K) : In x (sorted leb l) <-> In x l.
Proof.
  split; apply Permutation_in;
    [| symmetry]; apply sorted_Permutation.
Qed.

Lemma sorted_NoDup (l : list K) : NoDup l -> NoDup (sorted leb l).
Proof.
  apply Permutation_NoDup. symmetry. apply sorted_Permutation.
Qed.

Lemma groupby_keys {R : Type} (key : R -> K) (df : list R) :
  map fst (groupby eqb leb key df) = sorted leb (unique eqb (map key df)).
Proof.
  unfold groupby. rewrite map_map. cbn [fst]. apply map_id.
Qed.

Lemma groupby_length {R : Type} (key : R -> K) (df : list R) :
  List.length (groupby eqb leb key df)
  = List.length (unique eqb (map key df)).
Proof.
  rewrite <- (length_map fst), groupby_keys.
  apply Permutation_length, sorted_Permutation.
Qed.

(** A group holds the rows of its key, in the order of the frame, and it
    is not empty. *)
Lemma groupby_In {R : Type} (key : R -> K) (df : list R) (k : K)
    (rows : list R) :
  In (k, rows) (groupby eqb leb key df) ->
  rows = filter (fun r => eqb (key r) k) df
  /\ In k (map key df) /\ rows <> [].
Proof.
  unfold groupby. rewrite in_map_iff.
  intros (k' & Heq & Hin). injection Heq as -> <-.
  apply (proj1 (sorted_In _ _)), (proj1 (unique_In _ _)) in Hin.
  repeat split; [exact Hin |].
  apply in_map_iff in Hin. destruct Hin as (r & Hr & Hin).
  intros Hnil.
  assert (Hf : In r (filter (fun r => eqb (key r) k) df)).
  { apply filter_In. split; [exact Hin |]. now apply eqb_eq. }
  now rewrite Hnil in Hf.
Qed.

Section Ordered.

Hypothesis leb_total : forall x y, leb x y = true \/ leb y x = true.
Hypothesis leb_trans :
  forall x y z, leb x y = true -> leb y z = true -> leb x z = true.

Lemma insert_sorted (v : K) (l : list K) :
  StronglySorted (fun x y => leb x y = true) l ->
  StronglySorted (fun x y => leb x y = true) (insert leb v l).
Proof.
  induction 1 as [|w l Hl IH Hw]; cbn [insert].
  - repeat constructor.
  - destruct (leb v w) eqn:E.
    + constructor; [now constructor |].
      constructor; [exact E |].
      apply Forall_forall. intros y Hy.
      rewrite Forall_forall in Hw. eapply leb_trans; [exact E |].
      now apply Hw.
    + constructor; [exact IH |].
      apply Forall_forall. intros y Hy.
      apply (Permutation_in _ (insert_Permutation v l)) in Hy.
      destruct Hy as [<- | Hy].
      * destruct (leb_total w v) as [H | H]; [exact H | congruence].
      * rewrite Forall_forall in Hw. now apply Hw.
Qed.

Lemma sorted_sorted (l : list K) :
  StronglySorted (fun x y => leb x y = true) (sorted leb l).
Proof.
  induction l as [|v l IH]; cbn [sorted fold_right]; [constructor |].
  now apply insert_sorted.
Qed.

End Ordered.

End KeyedFacts.

Lemma ascending_of_sorted_NoDup (l : list Z) :
  StronglySorted (fun x y => (x <=? y) = true) l -> NoDup l ->
  StronglySorted Z.lt l.
Proof.
  induction 1 as [|a l _ IH Ha]; intros Hnd; constructor.
  - apply IH. now inversion Hnd.
  - apply Forall_forall. intros y Hy.
    rewrite Forall_forall in Ha. specialize (Ha y Hy).
    apply Z.leb_le in Ha.
    assert (a <> y) by (intros ->; now inversion Hnd). lia.
Qed.

(** The keys of a [groupby] on the timestamp come in ascending order. *)
Lemma groupby_timestamp_ascending (df : DataFrame) :
  StronglySorted Z.lt (map fst (groupby Z.eqb Z.leb timestamp df)).
Proof.
  rewrite groupby_keys. apply ascending_of_sorted_NoDup.
  - apply sorted_sorted.
    + intros x y. rewrite !Z.leb_le. lia.
    + intros x y z. rewrite !Z.leb_le. lia.
  - apply sorted_NoDup, unique_NoDup. exact Z.eqb_eq.
Qed.

(** ** The pairwise sum *)

(** Any depth from the length of the array on gives the same sum: the cuts
    never run out of depth. *)
Lemma pairwise_depth (d1 : nat) :
  forall d2 a,
    (List.length a <= d1)%nat -> (List.length a <= d2)%nat ->
    Numpy.pairwise d1 a = Numpy.pairwise d2 a.
Proof.
  induction d1 as [|d1 IH]; intros d2 a H1 H2.
  - destruct a; [| cbn [List.length] in H1; lia]. now destruct d2.
  - destruct (Nat.leb (List.length a) Numpy.PW_BLOCKSIZE) eqn:E.
    + cbn [Numpy.pairwise]. rewrite E.
      destruct d2; cbn [Numpy.pairwise]; now rewrite E.
    + apply Nat.leb_gt in E as Hn. unfold Numpy.PW_BLOCKSIZE in Hn.
      destruct d2 as [|d2]; [lia |].
      cbn [Numpy.pairwise]. rewrite E.
      pose proof (Nat.div_mod_eq (List.length a) 2) as Hdiv.
      pose proof (Nat.mod_upper_bound (List.length a) 2) as Hmod2.
      pose proof (Nat.mod_upper_bound (List.length a / 2) 8) as Hmod8.
      f_equal; apply IH;
        rewrite ?length_firstn, ?length_skipn; lia.
Qed.

Lemma pairwise_sum_depth (a : list float) (depth : nat) :
  (List.length a <= depth)%nat ->
  Numpy.pairwise depth a = Numpy.pairwise_sum a.
Proof.
  intros H. unfold Numpy.pairwise_sum. now apply pairwise_depth.
Qed.

(** Up to seven values are added from left to right. *)
Lemma sum_of_few (a : list float) :
  (List.length a < 8)%nat ->
  sum a = (0 + fold_left PrimFloat.add a (- 0))%float.
Proof.
  intros H. unfold sum, Numpy.add_reduce, Numpy.pairwise_sum.
  do 8 (destruct a as [|? a]; [reflexivity |]).
  cbn [List.length] in H. lia.
Qed.

(** ** The groupby kernels *)

Lemma update_length {A : Type} (i : nat) (f : A -> A) (l : list A) :
  List.length (update i f l) = List.length l.
Proof.
  revert i. induction l as [|x l IH]; intros [|i]; cbn [update List.length];
    try reflexivity.
  now rewrite IH.
Qed.

Lemma update_nth_error {A : Type} (f : A -> A) (l : list A) :
  forall i j,
    nth_error (update i f l) j
    = if Nat.eqb i j then option_map f (nth_error l j) else nth_error l j.
Proof.
  induction l as [|x l IH]; intros i j.
  - destruct i, j; cbn [update nth_error Nat.eqb option_map];
      try reflexivity.
    now destruct (Nat.eqb i j).
  - destruct i, j; cbn [update nth_error Nat.eqb option_map];
      try reflexivity.
    apply IH.
Qed.

(** After the pass, the state of a group is what the values of the rows
    labelled with it, in the order of the frame, make of its first state. *)
Lemma accumulate_by_label (vls : list (float * nat)) :
  forall accs i,
    nth_error
      (fold_left (fun accs vl =>
                    update (snd vl) (fun a => kahan_add a (fst vl)) accs)
                 vls accs) i
    = option_map
        (fun a => fold_left kahan_add
                    (map fst (filter (fun vl => Nat.eqb (snd vl) i) vls)) a)
        (nth_error accs i).
Proof.
  induction vls as [|[v lab] vls IH]; intros accs i; cbn [fold_left filter].
  - now destruct (nth_error accs i).
  - rewrite IH, update_nth_error. cbn [fst snd].
    destruct (Nat.eqb lab i); [| reflexivity].
    now destruct (nth_error accs i).
Qed.

Lemma accumulate_length (ngroups : nat) (values : list float)
    (labels : list nat) :
  List.length (accumulate ngroups values labels) = ngroups.
Proof.
  unfold accumulate.
  assert (H : forall vls accs,
            List.length
              (fold_left (fun accs (vl : float * nat) =>
                            update (snd vl) (fun a => kahan_add a (fst vl)) accs)
                         vls accs)
            = List.length accs).
  { induction vls as [|vl vls IH]; intros accs; cbn [fold_left];
      [reflexivity |].
    now rewrite IH, update_length. }
  rewrite H. apply repeat_length.
Qed.

(** The running sum of the kernel is the compensated sum, and the kernel
    counts the values that are numbers. *)
Lemma kahan_fold (values : list float) :
  forall s c n,
    sumx (fold_left kahan_add values (mkAccumulator s c n))
    = compensated_from s c values
    /\ nobs (fold_left kahan_add values (mkAccumulator s c n))
       = (n + observed values)%nat.
Proof.
  unfold observed.
  induction values as [|v values IH]; intros s c n;
    cbn [fold_left compensated_from filter List.length].
  - split; [reflexivity | cbn [sumx nobs]; lia].
  - unfold kahan_add at 2 4. cbn [sumx compensation nobs].
    destruct (v =? v)%float.
    + destruct (IH (s + (v - c))%float
                   (if ((s + (v - c) - s - (v - c)) =? (s + (v - c) - s - (v - c)))%float
                    then (s + (v - c) - s - (v - c))%float else 0%float)
                   (S n)) as (Hs & Hn).
      split; [exact Hs |]. rewrite Hn. cbn [List.length]. lia.
    + apply IH.
Qed.

Section CodesFacts.

Context {K : Type}.
Variable eqb : K -> K -> bool.
Variable leb : K -> K -> bool.
Hypothesis eqb_eq : forall x y, eqb x y = true <-> x = y.

Lemma eqb_false (x y : K) : eqb x y = false <-> x <> y.
Proof.
  split.
  - intros H Hxy. apply eqb_eq in Hxy. congruence.
  - intros H. destruct (eqb x y) eqn:E; [| reflexivity].
    apply eqb_eq in E. contradiction.
Qed.

(** The label of a key names the place of the key among the distinct
    keys. *)
Lemma index_of_nth (uniques : list K) :
  NoDup uniques ->
  forall i k k',
    nth_error uniques i = Some k -> In k' uniques ->
    Nat.eqb (index_of eqb k' uniques) i = eqb k' k.
Proof.
  induction 1 as [|u uniques Hu Hnd IH]; intros i k k' Hnth Hin.
  - destruct Hin.
  - cbn [index_of]. destruct i as [|i]; cbn [nth_error] in Hnth.
    + injection Hnth as ->.
      destruct (eqb k k') eqn:E.
      * apply eqb_eq in E. subst k'. symmetry. now apply eqb_eq.
      * apply eqb_false in E. symmetry. apply eqb_false. congruence.
    + assert (Hk : In k uniques) by now apply nth_error_In in Hnth.
      destruct (eqb u k') eqn:E.
      * apply eqb_eq in E. subst k'. symmetry. apply eqb_false.
        intros ->. contradiction.
      * apply eqb_false in E. cbn [Nat.eqb].
        apply (IH i k k' Hnth). destruct Hin as [Hin | Hin];
          [contradiction | exact Hin].
  Qed.

(** The values the kernel adds to the state of a group are those of the
    rows of the group, in the order of the frame. *)
Lemma labelled_values {R : Type} (key : R -> K) (col : R -> float)
    (uniques : list K) (i : nat) (k : K) (df : list R) :
  NoDup uniques -> nth_error uniques i = Some k ->
  (forall r, In r df -> In (key r) uniques) ->
  map fst (filter (fun vl => Nat.eqb (snd vl) i)
                  (combine (map col df)
                           (map (fun r => index_of eqb (key r) uniques) df)))
  = map col (filter (fun r => eqb (key r) k) df).
Proof.
  intros Hnd Hnth. induction df as [|r df IH]; intros Hkeys;
    cbn [map combine filter]; [reflexivity |].
  cbn [snd].
  rewrite (index_of_nth uniques Hnd i k (key r) Hnth)
    by (apply Hkeys; now left).
  destruct (eqb (key r) k); cbn [map fst]; rewrite IH;
    try reflexivity; intros r' Hr'; apply Hkeys; now right.
Qed.

Lemma group_accumulator {R : Type} (key : R -> K) (col : R -> float)
    (df : list R) (i : nat) (k : K) :
  nth_error (sorted leb (unique eqb (map key df))) i = Some k ->
  nth_error (accumulate (List.length (groupby eqb leb key df))
                        (map col df) (codes eqb leb key df)) i
  = Some (fold_left kahan_add
                    (map col (filter (fun r => eqb (key r) k) df))
                    (mkAccumulator 0 0 0)).
Proof.
  intros Hnth. unfold accumulate. rewrite accumulate_by_label.
  assert (Hi : (i < List.length (groupby eqb leb key df))%nat).
  { unfold groupby. rewrite length_map. apply nth_error_Some. congruence. }
  rewrite (nth_error_repeat _ Hi). cbn [option_map]. f_equal. f_equal.
  unfold codes. apply labelled_values.
  - apply sorted_NoDup, unique_NoDup, eqb_eq.
  - exact Hnth.
  - intros r Hr. apply sorted_In, (unique_In _ eqb_eq). now apply in_map.
Qed.

(** [group_sum] gives each group the compensated sum of the values of its
    rows, and [group_mean] their compensated mean. *)
Lemma group_sum_by_group {R : Type} (key : R -> K) (col : R -> float)
    (df : list R) :
  group_sum (List.length (groupby eqb leb key df)) (map col df)
            (codes eqb leb key df)
  = map (fun g => compensated_sum (map col (snd g))) (groupby eqb leb key df).
Proof.
  apply nth_error_ext. intros i. unfold group_sum.
  rewrite !nth_error_map. unfold groupby at 2. rewrite nth_error_map.
  destruct (nth_error (sorted leb (unique eqb (map key df))) i) as [k |] eqn:E.
  - rewrite (group_accumulator key col df i k E). cbn [option_map snd].
    f_equal. apply kahan_fold.
  - cbn [option_map].
    replace (nth_error (accumulate (List.length (groupby eqb leb key df))
                                   (map col df) (codes eqb leb key df)) i)
      with (@None Accumulator); [reflexivity |].
    symmetry. apply nth_error_None. rewrite accumulate_length.
    unfold groupby. rewrite length_map. now apply nth_error_None.
Qed.

Lemma group_mean_by_group {R : Type} (key : R -> K) (col : R -> float)
    (df : list R) :
  group_mean (List.length (groupby eqb leb key df)) (map col df)
             (codes eqb leb key df)
  = map (fun g => compensated_mean (map col (snd g))) (groupby eqb leb key df).
Proof.
  apply nth_error_ext. intros i. unfold group_mean.
  rewrite !nth_error_map. unfold groupby at 2. rewrite nth_error_map.
  destruct (nth_error (sorted leb (unique eqb (map key df))) i) as [k |] eqn:E.
  - rewrite (group_accumulator key col df i k E). cbn [option_map snd].
    f_equal. unfold compensated_mean, compensated_sum.
    destruct (kahan_fold (map col (filter (fun r => eqb (key r) k) df))
                         0%float 0%float O) as (Hs & Hn).
    rewrite Hs, Hn. reflexivity.
  - cbn [option_map].
    replace (nth_error (accumulate (List.length (groupby eqb leb key df))
                                   (map col df) (codes eqb leb key df)) i)
      with (@None Accumulator); [reflexivity |].
    symmetry. apply nth_error_None. rewrite accumulate_length.
    unfold groupby. rewrite length_map. now apply nth_error_None.
Qed.

End CodesFacts.

Lemma combine_map_map {A B C : Type} (f : A -> B) (g : A -> C) (l : list A) :
  combine (map f l) (map g l) = map (fun x => (f x, g x)) l.
Proof.
  induction l as [|x l IH]; cbn [map combine]; [reflexivity |].
  now rewrite IH.
Qed.

Lemma combine_map_r {A B : Type} (g : A -> B) (l : list A) :
  combine l (map g l) = map (fun x => (x, g x)) l.
Proof.
  induction l as [|x l IH]; cbn [map combine]; [reflexivity |].
  now rewrite IH.
Qed.

(** The tile of a room carries the compensated mean and sums of the rows of
    the room and the status of the last of them. *)
Lemma room_summaries_by_group (filtered : DataFrame) :
  room_summaries filtered
  = map (fun g : string * list Reading =>
           mkRoomSummary (fst g)
             (compensated_mean (map power (snd g)))
             (last_value (map status (snd g)))
             (compensated_sum (map energy_kwh (snd g)))
             (compensated_sum (map bill_taka (snd g)))
             (compensated_sum (map carbon_gco2 (snd g))))
        (groupby String.eqb String.leb room_id filtered).
Proof.
  unfold room_summaries. cbv zeta.
  rewrite (group_mean_by_group String.eqb String.leb String.eqb_eq).
  rewrite !(group_sum_by_group String.eqb String.leb String.eqb_eq).
  rewrite !combine_map_map, combine_map_r, map_map.
  apply map_ext. intros [room rows]. reflexivity.
Qed.

(** An entry of the trend carries the compensated sum of the power of the
    rows of its timestamp. *)
Lemma floor_trend_by_group (fdf : DataFrame) :
  floor_trend fdf
  = map (fun g : Timestamp * list Reading =>
           (fst g, compensated_sum (map power (snd g))))
        (groupby Z.eqb Z.leb timestamp fdf).
Proof.
  unfold floor_trend. cbv zeta.
  rewrite (group_sum_by_group Z.eqb Z.leb Z.eqb_eq).
  apply combine_map_map.
Qed.

(** ** The order of the generated table *)

Lemma list_prod_ordered (ks : list string) (dates : list Timestamp) :
  NoDup ks -> StronglySorted Z.lt dates ->
  StronglySorted (fun p q : string * Timestamp => fst p = fst q -> snd p < snd q)
                 (list_prod ks dates).
Proof.
  intros Hks Hdates. induction Hks as [|k ks Hk _ IH]; cbn [list_prod].
  - constructor.
  - apply StronglySorted_app; [| exact IH |].
    + apply StronglySorted_map. cbn [fst snd].
      eapply StronglySorted_ind with (R := Z.lt); [constructor | | exact Hdates].
      intros a l _ Hl Ha. constructor; [exact Hl |].
      eapply Forall_impl; [| exact Ha]. auto.
    + intros [k1 d1] [k2 d2] H1 H2. cbn [fst snd]. intros <-.
      apply in_map_iff in H1. destruct H1 as (d & Hd & _).
      injection Hd as <- <-.
      apply in_prod_iff in H2. now destruct H2.
Qed.

Section TableFacts.

Context {RandomState : Type}.
Variable uniform : float -> float -> RandomState -> float * RandomState.

Lemma generate_table_ordered start_date end_date g :
  StronglySorted earlier_in_room
                 (generate_table uniform start_date end_date g).
Proof.
  apply (StronglySorted_map_inv
           (fun p q : string * Timestamp => fst p = fst q -> snd p < snd q)
           key_of).
  rewrite generate_table_keys.
  apply list_prod_ordered; [apply rooms_NoDup | apply date_range_ascending].
Qed.

Lemma generate_table_rooms start_date end_date g r :
  In r (generate_table uniform start_date end_date g) ->
  In (room_id r) rooms.
Proof.
  intros Hin.
  assert (Hkey : In (key_of r)
                    (map key_of (generate_table uniform start_date end_date g)))
    by now apply in_map.
  rewrite generate_table_keys in Hkey. unfold key_of in Hkey.
  apply in_prod_iff in Hkey. tauto.
Qed.

Lemma generate_table_dates start_date end_date g r :
  In r (generate_table uniform start_date end_date g) ->
  within (date_of start_date) (date_of end_date) r.
Proof.
  intros Hin. apply generate_table_In in Hin.
  destruct Hin as (room & fl & d & g0 & _ & Hd & ->).
  destruct (reading_at_key uniform room fl d g0) as (Ht & _).
  unfold within. rewrite Ht. unfold date_of, minutes_per_day.
  split; apply Z.div_le_mono; lia.
Qed.

End TableFacts.

(** ** The claims on the filter and the aggregations *)

Lemma filtered_df_In data_df start_date end_date r :
  In r (filtered_df data_df start_date end_date)
  <-> In r data_df /\ within start_date end_date r.
Proof.
  unfold filtered_df, within. rewrite filter_In, andb_true_iff.
  rewrite Z.geb_le, Z.leb_le. tauto.
Qed.

Lemma filtered_df_empty data_df start_date end_date :
  (forall r, In r data_df -> ~ within start_date end_date r) ->
  filtered_df data_df start_date end_date = [].
Proof.
  intros H. apply filter_none. apply Forall_forall. intros r Hin.
  specialize (H r Hin). unfold within in H.
  apply andb_false_iff.
  destruct (date_of (timestamp r) >=? start_date) eqn:E1; [right | now left].
  apply Z.geb_le in E1. apply Z.leb_gt. lia.
Qed.

(** C4. The range-filtered table holds exactly the readings of the full
    table whose date lies in [start_date, end_date]: the full table is the
    filtered one together with readings all outside the range.  When no
    reading lies in the range, as when [start_date > end_date], the filtered
    table is empty, the three totals are zero and the tile summary and the
    trend series are empty; every function is total, so nothing is raised. *)
Theorem filtered_df_exactly_within (data_df : DataFrame)
    (start_date end_date : Date) :
  let filtered := filtered_df data_df start_date end_date in
  (forall r, In r filtered <-> In r data_df /\ within start_date end_date r)
  /\ (exists rest, Permutation data_df (filtered ++ rest)
                   /\ Forall (fun r => ~ within start_date end_date r) rest)
  /\ ((forall r, In r data_df -> ~ within start_date end_date r) ->
      filtered = [] /\ zero_totals filtered
      /\ room_summaries filtered = []
      /\ forall selected_floor,
           floor_trend (floor_df filtered selected_floor) = [])
  /\ (start_date > end_date -> filtered = [] /\ zero_totals filtered).
Proof.
  intros filtered.
  assert (Hempty : (forall r, In r data_df -> ~ within start_date end_date r) ->
                   filtered = []) by apply filtered_df_empty.
  split; [apply filtered_df_In |]. split; [| split].
  - exists (filter (fun r => negb ((date_of (timestamp r) >=? start_date)
                                   && (date_of (timestamp r) <=? end_date)))
                   data_df).
    split; [apply filter_partition_Permutation |].
    apply Forall_forall. intros r Hr. apply filter_In in Hr.
    destruct Hr as (_ & Hr). apply negb_true_iff, andb_false_iff in Hr.
    unfold within. rewrite Z.geb_leb, !Z.leb_gt in Hr. lia.
  - intros Hnone. rewrite (Hempty Hnone). repeat split.
  - intros Hgt. rewrite Hempty; [repeat split |].
    intros r _. unfold within. lia.
Qed.

Section AggregationClaims.

Context {RandomState : Type}.
Variable uniform : float -> float -> RandomState -> float * RandomState.

(** C9. A date range that covers the window of the generator, 1 to 23
    November 2025, filters nothing out: the filtered table is the full
    table, and its totals of energy, bill and carbon are those of the
    full table. *)
Theorem full_window_filter_same_totals (g : RandomState)
    (start_date end_date : Date) :
  start_date <= date 2025 11 1 -> date 2025 11 23 <= end_date ->
  let table := generate_data uniform g in
  let filtered := filtered_df table start_date end_date in
  filtered = table
  /\ total_energy filtered = total_energy table
  /\ total_bill filtered = total_bill table
  /\ total_carbon filtered = total_carbon table.
Proof.
  intros Hs He table filtered.
  assert (Hsame : filtered = table).
  { apply filter_all. apply Forall_forall. intros r Hin.
    apply generate_table_dates in Hin. unfold within in Hin.
    change (date_of window_start) with (date 2025 11 1) in Hin.
    change (date_of window_end) with (date 2025 11 23) in Hin.
    apply andb_true_iff. rewrite Z.geb_le, Z.leb_le. lia. }
  now rewrite Hsame.
Qed.

(** C5. The tile summary of the filtered table has one row per distinct
    room of the filtered table, nine at most; the row of a room carries
    the mean of [power] and the sums of [energy_kwh], [bill_taka] and
    [carbon_gco2] over the filtered readings of the room, as the kernels of
    pandas add them up, with the compensation of Kahan, in the order of the
    readings, and the status of the reading of the room with the latest
    timestamp. *)
Theorem room_summaries_per_room (g : RandomState)
    (start_date end_date : Date) :
  let filtered := filtered_df (generate_data uniform g) start_date end_date in
  let tiles := room_summaries filtered in
  List.length tiles
  = List.length (unique String.eqb (map room_id filtered))
  /\ (List.length tiles <= 9)%nat
  /\ NoDup (map rs_room_id tiles)
  /\ (forall room, In room (map rs_room_id tiles)
                   <-> In room (map room_id filtered))
  /\ Forall (fun tile =>
       let rows :=
         filter (fun r => (room_id r =? rs_room_id tile)%string) filtered in
       rs_power tile = compensated_mean (map power rows)
       /\ rs_energy_kwh tile = compensated_sum (map energy_kwh rows)
       /\ rs_bill_taka tile = compensated_sum (map bill_taka rows)
       /\ rs_carbon_gco2 tile = compensated_sum (map carbon_gco2 rows)
       /\ exists latest,
            In latest rows
            /\ rs_status tile = Some (status latest)
            /\ Forall (fun r => timestamp r <= timestamp latest) rows)
     tiles.
Proof.
  intros filtered tiles.
  assert (Htiles : tiles
            = map (fun g : string * list Reading =>
                     mkRoomSummary (fst g)
                       (compensated_mean (map power (snd g)))
                       (last_value (map status (snd g)))
                       (compensated_sum (map energy_kwh (snd g)))
                       (compensated_sum (map bill_taka (snd g)))
                       (compensated_sum (map carbon_gco2 (snd g))))
                  (groupby String.eqb String.leb room_id filtered))
    by apply room_summaries_by_group.
  assert (Hrooms : map rs_room_id tiles
                   = sorted String.leb
                       (unique String.eqb (map room_id filtered))).
  { rewrite Htiles, map_map. cbn [rs_room_id].
    apply (groupby_keys String.eqb String.leb room_id filtered). }
  assert (Hlen : List.length tiles
                 = List.length (unique String.eqb (map room_id filtered))).
  { rewrite Htiles, length_map. apply groupby_length. }
  split; [exact Hlen |]. split; [| split; [| split]].
  - rewrite Hlen. change 9%nat with (List.length rooms).
    apply NoDup_incl_length; [apply unique_NoDup, String.eqb_eq |].
    intros room Hin. apply (proj1 (unique_In _ String.eqb_eq _ _)) in Hin.
    apply in_map_iff in Hin. destruct Hin as (r & <- & Hin).
    apply filtered_df_In in Hin. destruct Hin as (Hin & _).
    apply generate_table_rooms in Hin. exact Hin.
  - rewrite Hrooms. apply sorted_NoDup, unique_NoDup, String.eqb_eq.
  - intros room. rewrite Hrooms, sorted_In.
    apply unique_In, String.eqb_eq.
  - apply Forall_forall. intros tile Htile.
    rewrite Htiles in Htile. apply in_map_iff in Htile.
    destruct Htile as ([k rows] & <- & Hgroup).
    apply (groupby_In _ _ String.eqb_eq) in Hgroup.
    destruct Hgroup as (Hrows & _ & Hne).
    cbn [fst snd rs_room_id rs_power rs_status rs_energy_kwh
         rs_bill_taka rs_carbon_gco2].
    rewrite <- Hrows. do 4 (split; [reflexivity |]).
    destruct (snoc_of_nonempty rows Hne) as (rows' & latest & Hsnoc).
    exists latest. split; [rewrite Hsnoc; apply in_or_app; right; now left |].
    split; [rewrite Hsnoc, map_app; cbn [map]; apply last_value_snoc |].
    assert (Hsorted : StronglySorted earlier_in_room rows).
    { rewrite Hrows. unfold filtered, filtered_df.
      do 2 apply StronglySorted_filter. apply generate_table_ordered. }
    assert (Hroom : forall r, In r rows -> room_id r = k).
    { intros r Hr. rewrite Hrows in Hr. apply filter_In in Hr.
      destruct Hr as (_ & Hr). apply String.eqb_eq. exact Hr. }
    rewrite Hsnoc in Hsorted. apply StronglySorted_last in Hsorted.
    rewrite Hsnoc at 1. apply Forall_app. split.
    + eapply Forall_impl; [| apply Forall_forall; intros r Hr;
                              exact (conj Hr (proj1 (Forall_forall _ _)
                                                     Hsorted r Hr))].
      intros r (Hr & Hearlier). unfold earlier_in_room in Hearlier.
      assert (room_id r = room_id latest).
      { rewrite !Hroom; [reflexivity | |]; rewrite Hsnoc; apply in_or_app;
          [right; now left | now left]. }
      specialize (Hearlier H). lia.
    + constructor; [lia | constructor].
Qed.

End AggregationClaims.

(** C6. The trend series of a floor has one entry per distinct timestamp of
    the filtered readings of the floor, in ascending order of timestamp, and
    the value of an entry is the sum of [power] over the readings of the
    floor at that timestamp, as the kernel of pandas adds them up, with the
    compensation of Kahan, in the order of the readings. *)
Theorem floor_trend_per_timestamp (data_df : DataFrame)
    (start_date end_date : Date) (selected_floor : option string) :
  let filtered := filtered_df data_df start_date end_date in
  let fdf := floor_df filtered selected_floor in
  let trend := floor_trend fdf in
  (forall r, In r fdf <-> In r filtered /\ selected_floor = Some (floor r))
  /\ StronglySorted Z.lt (map fst trend)
  /\ (forall t, In t (map fst trend) <-> In t (map timestamp fdf))
  /\ List.length trend = List.length (unique Z.eqb (map timestamp fdf))
  /\ Forall (fun entry =>
       snd entry
       = compensated_sum
           (map power (filter (fun r => timestamp r =? fst entry) fdf)))
     trend.
Proof.
  intros filtered fdf trend.
  assert (Htrend : trend
            = map (fun g : Timestamp * list Reading =>
                     (fst g, compensated_sum (map power (snd g))))
                  (groupby Z.eqb Z.leb timestamp fdf))
    by apply floor_trend_by_group.
  assert (Hkeys : map fst trend
                  = map fst (groupby Z.eqb Z.leb timestamp fdf)).
  { rewrite Htrend, map_map. reflexivity. }
  split; [| split; [| split; [| split]]].
  - intros r. unfold fdf, floor_df. rewrite filter_In.
    destruct selected_floor as [f |].
    + rewrite String.eqb_eq. split; intros (H1 & H2); split; congruence.
    + split; [intros (_ & H); discriminate | intros (_ & H); discriminate].
  - rewrite Hkeys. apply groupby_timestamp_ascending.
  - intros t. rewrite Hkeys, groupby_keys, sorted_In.
    apply unique_In, Z.eqb_eq.
  - rewrite Htrend, length_map. apply groupby_length.
  - apply Forall_forall. intros entry Hentry.
    rewrite Htrend in Hentry. apply in_map_iff in Hentry.
    destruct Hentry as ([t rows] & <- & Hgroup).
    apply (groupby_In _ _ Z.eqb_eq) in Hgroup.
    destruct Hgroup as (-> & _). reflexivity.
Qed.

(** ** The device registry *)

Module DictFacts.

Lemma get_set_same k v d : Dict.get k (Dict.set k v d) = Some v.
Proof.
  induction d as [|[k' v'] d IH]; cbn [Dict.set Dict.get].
  - now rewrite String.eqb_refl.
  - destruct (k =? k')%string eqn:E; cbn [Dict.get]; rewrite ?E.
    + now rewrite String.eqb_refl.
    + exact IH.
Qed.

Lemma get_set_other k v d k' :
  k' <> k -> Dict.get k' (Dict.set k v d) = Dict.get k' d.
Proof.
  intros Hne. apply String.eqb_neq in Hne.
  induction d as [|[k0 v0] d IH]; cbn [Dict.set Dict.get].
  - now rewrite Hne.
  - destruct (k =? k0)%string eqn:E; cbn [Dict.get].
    + apply String.eqb_eq in E. subst k0. now rewrite Hne.
    + now rewrite IH.
Qed.

Lemma get_In k v d : Dict.get k d = Some v -> In (k, v) (Dict.items d).
Proof.
  induction d as [|[k' v'] d IH]; cbn [Dict.get Dict.items]; [discriminate |].
  destruct (k =? k')%string eqn:E.
  - apply String.eqb_eq in E. intros [= ->]. subst. now left.
  - intros H. right. now apply IH.
Qed.

Lemma In_get k v d :
  NoDup (Dict.keys d) -> In (k, v) (Dict.items d) -> Dict.get k d = Some v.
Proof.
  induction d as [|[k' v'] d IH]; cbn [Dict.keys Dict.items map fst Dict.get];
    [intros _ [] |].
  intros Hnd [Heq | Hin].
  - injection Heq as -> ->. now rewrite String.eqb_refl.
  - inversion Hnd as [|? ? Hk' Hnd']. subst.
    destruct (k =? k')%string eqn:E.
    + apply String.eqb_eq in E. subst k'. exfalso. apply Hk'.
      change k with (fst (k, v)). now apply in_map.
    + now apply IH.
Qed.

Lemma contains_In k d : Dict.contains k d = true <-> In k (Dict.keys d).
Proof.
  unfold Dict.contains.
  induction d as [|[k' v'] d IH]; cbn [Dict.get Dict.keys map fst In].
  - split; [discriminate | intros []].
  - destruct (k =? k')%string eqn:E.
    + apply String.eqb_eq in E. subst. split; [now left | reflexivity].
    + apply String.eqb_neq in E. rewrite IH. unfold Dict.keys.
      split; [now right | intros [H | H]; [congruence | exact H]].
Qed.

Lemma keys_set k v d :
  Dict.keys (Dict.set k v d)
  = if Dict.contains k d then Dict.keys d else Dict.keys d ++ [k].
Proof.
  unfold Dict.contains.
  induction d as [|[k' v'] d IH]; cbn [Dict.set Dict.get Dict.keys map fst];
    [reflexivity |].
  destruct (k =? k')%string eqn:E; cbn [map fst].
  - apply String.eqb_eq in E. now subst.
  - unfold Dict.keys in IH. rewrite IH.
    now destruct (Dict.get k d).
Qed.

(** The keys of a registry stay distinct. *)
Lemma set_NoDup k v d :
  NoDup (Dict.keys d) -> NoDup (Dict.keys (Dict.set k v d)).
Proof.
  intros Hnd. rewrite keys_set.
  destruct (Dict.contains k d) eqn:E; [exact Hnd |].
  apply NoDup_app; [exact Hnd | repeat constructor; intros [] |].
  intros x Hx [<- | []].
  apply contains_In in Hx. congruence.
Qed.

Lemma remove_keys_incl k d x :
  In x (Dict.keys (Dict.remove k d)) -> In x (Dict.keys d).
Proof.
  induction d as [|[k' v'] d IH]; cbn [Dict.remove Dict.keys map fst];
    [intros [] |].
  destruct (k =? k')%string; cbn [map fst In].
  - now right.
  - intros [H | H]; [now left | right; now apply IH].
Qed.

Lemma remove_NoDup k d :
  NoDup (Dict.keys d) -> NoDup (Dict.keys (Dict.remove k d)).
Proof.
  induction d as [|[k' v'] d IH]; cbn [Dict.remove Dict.keys map fst];
    [constructor |].
  intros Hnd. inversion Hnd as [|? ? Hk' Hnd']. subst.
  destruct (k =? k')%string; [exact Hnd' |].
  cbn [map fst]. constructor; [| now apply IH].
  intros H. apply Hk'. now apply remove_keys_incl in H.
Qed.

Lemma remove_not_In k d :
  NoDup (Dict.keys d) -> ~ In k (Dict.keys (Dict.remove k d)).
Proof.
  induction d as [|[k' v'] d IH]; cbn [Dict.remove Dict.keys map fst];
    [intros _ [] |].
  intros Hnd. inversion Hnd as [|? ? Hk' Hnd']. subst.
  destruct (k =? k')%string eqn:E.
  - apply String.eqb_eq in E. now subst.
  - apply String.eqb_neq in E. cbn [map fst In].
    intros [H | H]; [congruence | now apply IH in H].
Qed.

End DictFacts.

Lemma selectbox_In {A : Type} (options : list A) (picked : nat) (o : A) :
  selectbox options picked = Some o -> In o options.
Proof.
  unfold selectbox. destruct (nth_error options picked) eqn:E.
  - intros [= ->]. now apply nth_error_In in E.
  - destruct options; cbn [hd_error]; [discriminate |].
    intros [= ->]. now left.
Qed.

Lemma selectbox_None {A : Type} (options : list A) (picked : nat) :
  selectbox options picked = None <-> options = [].
Proof.
  unfold selectbox. split.
  - destruct (nth_error options picked); [discriminate |].
    destruct options; [reflexivity | discriminate].
  - intros ->. now destruct picked.
Qed.

Lemma truthy_nonempty s : truthy s = true <-> s <> "".
Proof.
  unfold truthy. rewrite negb_true_iff. apply String.eqb_neq.
Qed.


(** The key picked for deletion comes from the enumeration of the registry,
    so it is missing from the registry only when the registry is empty. *)
Lemma delete_room_absent_iff_empty (d : Dict.t) (picked : nat) :
  (forall k, selectbox (Dict.keys d) picked = Some k -> ~ In k (Dict.keys d))
  <-> d = [].
Proof.
  split.
  - intros Habs. destruct (selectbox (Dict.keys d) picked) as [k |] eqn:E.
    + destruct (Habs k eq_refl). now apply selectbox_In in E.
    + apply selectbox_None in E. now destruct d.
  - intros -> k H. destruct picked; discriminate H.
Qed.

(** The keys of the registry stay distinct over a run. *)
Lemma device_management_NoDup inp session :
  NoDup (Dict.keys session) ->
  NoDup (Dict.keys (devices (device_management inp session))).
Proof.
  intros Hnd.
  unfold device_management, and_then, add_update_device, delete_device, footer.
  cbn [raised devices page].
  assert (Hdel : forall d key,
             NoDup (Dict.keys d) ->
             match delitem key d with
             | inl _ => True
             | inr d' => NoDup (Dict.keys d')
             end).
  { intros d [k |] Hd; cbn [delitem]; [| exact I].
    destruct (Dict.contains k d); [now apply DictFacts.remove_NoDup | exact I]. }
  destruct (add_clicked inp);
    [destruct (truthy (new_room inp) && truthy (new_device inp)) |];
    cbn [raised devices page];
    (destruct (delete_clicked inp); cbn [raised devices page];
     [match goal with
      | |- context [delitem ?k ?d] =>
          let H := fresh in
          assert (H : NoDup (Dict.keys d))
            by (try apply DictFacts.set_NoDup; exact Hnd);
          pose proof (Hdel d k H); destruct (delitem k d)
      end |]);
    cbn [raised devices page];
    try assumption; try (apply DictFacts.set_NoDup; exact Hnd).
Qed.

(** The page of a run starts with the enumeration of the registry. *)
Lemma device_management_enumerates inp session :
  hd_error (page (device_management inp session))
  = Some (Dataframe (Dict.items session)).
Proof.
  unfold device_management, and_then, add_update_device, delete_device, footer.
  cbn [raised devices page].
  destruct (add_clicked inp);
    [destruct (truthy (new_room inp) && truthy (new_device inp)) |];
    cbn [raised devices page];
    (destruct (delete_clicked inp);
     [match goal with
      | |- context [delitem ?k ?d] => destruct (delitem k d)
      end |]);
    reflexivity.
Qed.

(** A run in which nothing is deleted ends without exception. *)
Lemma device_management_completes inp session :
  delete_clicked inp = false ->
  raised (device_management inp session) = None.
Proof.
  intros Hdel.
  unfold device_management, and_then, add_update_device, delete_device, footer.
  cbn [raised devices page]. rewrite Hdel.
  destruct (add_clicked inp);
    [destruct (truthy (new_room inp) && truthy (new_device inp)) |];
    cbn [raised devices page]; rewrite ?Hdel; reflexivity.
Qed.


(** C8, as the code has it.  Insert-or-update with a room and a device that
    are both non-empty stores that pair, the only one of the room, leaves
    the other rooms as they were, and the enumeration of the next run shows
    it.  With an empty room or an empty device the request is ignored: the
    run raises nothing, writes no message and leaves the registry as it
    was. *)
Theorem add_update_device_stores_or_ignores (inp : DeviceInput)
    (session : Dict.t) :
  NoDup (Dict.keys session) ->
  add_clicked inp = true ->
  delete_clicked inp = false ->
  let run := device_management inp session in
  (new_room inp <> "" /\ new_device inp <> "" ->
   Dict.get (new_room inp) (devices run) = Some (new_device inp)
   /\ In (new_room inp, new_device inp) (Dict.items (devices run))
   /\ (forall v, In (new_room inp, v) (Dict.items (devices run)) ->
                 v = new_device inp)
   /\ (forall k, k <> new_room inp ->
                 Dict.get k (devices run) = Dict.get k session)
   /\ NoDup (Dict.keys (devices run))
   /\ raised run = None
   /\ forall later,
        hd_error (page (device_management later (devices run)))
        = Some (Dataframe (Dict.items (devices run))))
  /\ (new_room inp = "" \/ new_device inp = "" ->
      devices run = session
      /\ raised run = None
      /\ rendered run = idle_page session).
Proof.
  intros Hnd Hadd Hdel run. split.
  - intros (Hroom & Hdev). apply truthy_nonempty in Hroom, Hdev.
    assert (Hdevices : devices run
                       = Dict.set (new_room inp) (new_device inp) session).
    { unfold run, device_management, and_then, add_update_device,
        delete_device, footer.
      cbn [raised devices page]. rewrite Hadd, Hroom, Hdev.
      cbn [andb raised devices page]. rewrite Hdel. reflexivity. }
    assert (Hget : Dict.get (new_room inp) (devices run)
                   = Some (new_device inp))
      by (rewrite Hdevices; apply DictFacts.get_set_same).
    assert (Hnd' : NoDup (Dict.keys (devices run)))
      by (rewrite Hdevices; now apply DictFacts.set_NoDup).
    split; [exact Hget |]. split; [now apply DictFacts.get_In |].
    split.
    { intros v Hin. apply (DictFacts.In_get _ _ _ Hnd') in Hin. congruence. }
    split.
    { intros k Hk. rewrite Hdevices. now apply DictFacts.get_set_other. }
    split; [exact Hnd' |].
    split; [now apply device_management_completes |].
    intros later. apply device_management_enumerates.
  - intros Hempty.
    assert (Hfalse : truthy (new_room inp) && truthy (new_device inp) = false).
    { apply andb_false_iff. unfold truthy.
      destruct Hempty as [-> | ->]; [left | right]; reflexivity. }
    unfold run, device_management, and_then, add_update_device,
      delete_device, footer, rendered, idle_page.
    cbn [raised devices page]. rewrite Hadd, Hfalse.
    cbn [raised devices page]. rewrite Hdel. cbn [raised devices page].
    repeat split.
Qed.

(** ** The registry of a new session *)

Lemma unique_block (a : string) (n : nat) (rest : list string) :
  ~ In a rest ->
  unique String.eqb (repeat a (S n) ++ rest) = a :: unique String.eqb rest.
Proof.
  intros Ha.
  assert (Hkeep : filter (fun w => negb (w =? a)%string)
                         (unique String.eqb rest)
                  = unique String.eqb rest).
  { apply filter_all, Forall_forall. intros w Hw.
    apply (proj1 (unique_In _ String.eqb_eq _ _)) in Hw.
    apply negb_true_iff, String.eqb_neq. congruence. }
  induction n as [|n IH].
  - cbn [repeat app unique]. now rewrite Hkeep.
  - change (repeat a (S (S n)) ++ rest) with (a :: (repeat a (S n) ++ rest)).
    cbn [unique]. rewrite IH. cbn [filter].
    rewrite String.eqb_refl. cbn [negb]. now rewrite Hkeep.
Qed.

Lemma unique_blocks (ks : list string) (n : nat) :
  NoDup ks ->
  unique String.eqb (flat_map (fun k => repeat k (S n)) ks) = ks.
Proof.
  induction 1 as [|k ks Hk _ IH]; cbn [flat_map]; [reflexivity |].
  rewrite unique_block, IH; [reflexivity |].
  intros Hin. apply in_flat_map in Hin. destruct Hin as (k' & Hk' & Hin).
  apply repeat_spec in Hin. congruence.
Qed.

Section SessionFacts.

Context {RandomState : Type}.
Variable uniform : float -> float -> RandomState -> float * RandomState.

(** [data_df['room_id'].unique()] is the list of the nine rooms. *)
Lemma generate_data_rooms (g : RandomState) :
  unique String.eqb (map room_id (generate_data uniform g)) = rooms.
Proof.
  change (map room_id (generate_data uniform g))
    with (map (fun r => fst (key_of r)) (generate_data uniform g)).
  rewrite <- (map_map key_of fst).
  unfold generate_data. rewrite generate_table_keys, fst_list_prod.
  pose proof (date_range_length window_start window_end window_nonempty)
    as Hlen.
  destruct (List.length (date_range window_start window_end)) as [|n].
  - exfalso. pose proof window_nonempty. cbn [Z.of_nat] in Hlen. lia.
  - apply unique_blocks, rooms_NoDup.
Qed.

(** A new session has one device per room. *)
Lemma initial_devices_of_generate_data (g : RandomState) :
  initial_devices (generate_data uniform g)
  = [("101", "device_101"); ("102", "device_102"); ("103", "device_103");
     ("201", "device_201"); ("202", "device_202"); ("203", "device_203");
     ("301", "device_301"); ("302", "device_302"); ("303", "device_303")].
Proof.
  unfold initial_devices. rewrite generate_data_rooms. reflexivity.
Qed.

End SessionFacts.

(** ** The claims at concrete inputs *)

(** The registry of a new session. *)
Lemma new_session_NoDup :
  NoDup (Dict.keys (initial_devices (generate_data Lcg.uniform 7))).
Proof.
  rewrite initial_devices_of_generate_data.
  change (NoDup rooms). apply rooms_NoDup.
Qed.

Lemma current_zero_iff_status_off_witness :
  uniform_in_range Lcg.uniform 5 10
  /\ Forall (fun r =>
               ((current r =? 0)%float = true <-> status r = "off")
               /\ (status r = "off" <-> ~ operating (timestamp r))
               /\ ((current r =? 0)%float = true
                   <-> ~ operating (timestamp r)))
            (generate_data Lcg.uniform 7).
Proof.
  split; [exact Lcg_uniform_in_range |].
  apply (current_zero_iff_status_off Lcg.uniform 7).
  exact Lcg_uniform_in_range.
Defined.

Lemma one_reading_per_room_and_minute_witness :
  window_start <= window_end
  /\ map key_of (generate_data Lcg.uniform 7)
     = list_prod rooms (date_range window_start window_end)
  /\ Z.of_nat (List.length (generate_data Lcg.uniform 7)) = 298080.
Proof.
  assert (H : window_start <= window_end) by (vm_compute; discriminate).
  split; [exact H |].
  destruct (one_reading_per_room_and_minute Lcg.uniform
              window_start window_end 7 H) as (Hkeys & _ & _ & _ & Hlen & _).
  split; [exact Hkeys | exact Hlen].
Defined.

Lemma full_window_filter_same_totals_witness :
  date 2025 11 1 <= date 2025 11 1
  /\ date 2025 11 23 <= date 2025 11 23
  /\ filtered_df (generate_data Lcg.uniform 7)
                 (date 2025 11 1) (date 2025 11 23)
     = generate_data Lcg.uniform 7.
Proof.
  assert (H1 : date 2025 11 1 <= date 2025 11 1) by lia.
  assert (H2 : date 2025 11 23 <= date 2025 11 23) by lia.
  split; [exact H1 |]. split; [exact H2 |].
  exact (proj1 (full_window_filter_same_totals Lcg.uniform 7
                  (date 2025 11 1) (date 2025 11 23) H1 H2)).
Defined.



Lemma add_update_device_stores_or_ignores_witness :
  let inp := mkDeviceInput "201" "dev_201" true 0 false in
  let session := initial_devices (generate_data Lcg.uniform 7) in
  NoDup (Dict.keys session)
  /\ In ("201", "dev_201")
        (Dict.items (devices (device_management inp session)))
  /\ Dict.get "201" (devices (device_management inp session))
     = Some "dev_201".
Proof.
  intros inp session.
  split; [exact new_session_NoDup |].
  destruct (add_update_device_stores_or_ignores inp session
              new_session_NoDup eq_refl eq_refl) as (Hstore & _).
  destruct Hstore as (Hget & Hin & _).
  - split; discriminate.
  - split; [exact Hin | exact Hget].
Defined.

(** C8, as the specification has it, fails on the code: an insert-or-update
    with an empty room identifier does not fail.  The run completes, shows
    no message, and the page is the one of a run in which nothing was
    asked. *)
Lemma empty_room_is_not_rejected :
  let inp := mkDeviceInput "" "dev_201" true 0 false in
  let session := [("101", "device_101")] in
  ~ failed (device_management inp session)
  /\ raised (device_management inp session) = None
  /\ rendered (device_management inp session) = idle_page session.
Proof.
  intros inp session.
  assert (H : raised (device_management inp session) = None) by reflexivity.
  split; [| split; [exact H | reflexivity]].
  intros (e & He). rewrite H in He. discriminate.
Qed.

(** ** Runs of the program *)

Example ordinal_of_window_start : date 2025 11 1 = 739556.
Proof. reflexivity. Qed.

Example hour_of_window_end : hour window_end = 23 /\ minute window_end = 59.
Proof. split; reflexivity. Qed.

Example row_count_of_generate_data :
  9 * (window_end - window_start + 1) = 298080.
Proof. reflexivity. Qed.

(** The rows of room 101 from 07:59 to 08:00 on 1 November 2025: the first
    is off with no current, the second is on. *)
Example readings_around_eight :
  let table := generate_table Lcg.uniform (datetime 2025 11 1 7 59)
                              (datetime 2025 11 1 8 0) 7 in
  map (fun r => (room_id r, floor r, hour (timestamp r), minute (timestamp r),
                 current r, status r))
      (firstn 2 table)
  = [("101", "1", 7, 59, 0%float, "off");
     ("101", "1", 8, 0, 9.07470703125%float, "on")]
  /\ List.length table = 18%nat.
Proof. vm_compute. split; reflexivity. Qed.

(** Three minutes of one night: no current, no energy, no bill, no carbon. *)
Example off_hours_totals :
  let table := generate_table Lcg.uniform (datetime 2025 11 1 0 0)
                              (datetime 2025 11 1 0 2) 7 in
  Forall (fun r => current r = 0%float /\ status r = "off") table
  /\ zero_totals table.
Proof.
  cbv zeta. split.
  - vm_compute. repeat constructor.
  - vm_compute. repeat split.
Qed.

(** Tiles and trend of two minutes around eight. *)
Example tiles_around_eight :
  let table := generate_table Lcg.uniform (datetime 2025 11 1 7 59)
                              (datetime 2025 11 1 8 0) 7 in
  let filtered := filtered_df table (date 2025 11 1) (date 2025 11 23) in
  map (fun tile => (rs_room_id tile, rs_status tile)) (room_summaries filtered)
  = map (fun room => (room, Some "on")) rooms
  /\ map fst (floor_trend (floor_df filtered (Some "2")))
     = [datetime 2025 11 1 7 59; datetime 2025 11 1 8 0]
  /\ filtered_df table (date 2025 11 2) (date 2025 11 1) = [].
Proof. vm_compute. repeat split. Qed.

(** Add, then delete, a device. *)
Example add_then_delete :
  let session := [("101", "device_101"); ("102", "device_102")] in
  let added :=
    device_management (mkDeviceInput "201" "dev_201" true 0 false) session in
  let deleted :=
    device_management (mkDeviceInput "" "" false 2 true) (devices added) in
  devices added
  = [("101", "device_101"); ("102", "device_102"); ("201", "dev_201")]
  /\ devices deleted = session
  /\ raised deleted = None
  /\ In (Success "Deleted device for room 201") (page deleted).
Proof. vm_compute. repeat split. right. now left. Qed.

(** * Further properties of the program *)

(** ** Values of the generated readings *)

(** A voltage drawn in [220, 240) times the zero current is zero. *)
Lemma voltage_times_zero (v : float) :
  in_range 220 240 v -> (v * 0)%float = 0%float.
Proof.
  intros (Hlo & Hhi). apply Prim2SF_inj. rewrite FloatAxioms.mul_spec.
  rewrite FloatAxioms.leb_spec in Hlo. rewrite FloatAxioms.ltb_spec in Hhi.
  destruct (Prim2SF v) as [s | s | | s m e]; try discriminate Hlo.
  - destruct s; [discriminate Hlo | discriminate Hhi].
  - destruct s; [discriminate Hlo | reflexivity].
Qed.

Section ReadingValues.

Context {RandomState : Type}.
Variable uniform : float -> float -> RandomState -> float * RandomState.

(** X1. Outside the operating hours a reading of the generated table has no
    current, no power, no energy, no bill and no carbon: all are [0.0]; the
    voltage is assumed to be drawn in its range [220, 240). *)
Theorem off_hours_readings_idle (g : RandomState) :
  uniform_in_range uniform 220 240 ->
  Forall (fun r => ~ operating (timestamp r) -> idle r /\ status r = "off")
         (generate_data uniform g).
Proof.
  intros Hv. apply Forall_forall. intros r Hin Hoff.
  apply generate_table_In in Hin.
  destruct Hin as (room & fl & d & g0 & _ & _ & ->).
  pose proof (reading_at_derived uniform room fl d g0) as (Hp & He & Hb & Hk).
  pose proof (reading_at_voltage uniform room fl d g0) as Hvolt.
  destruct (reading_at_key uniform room fl d g0) as (Ht & _).
  destruct (reading_at_status uniform room fl d g0) as (Hstatus & _).
  destruct (reading_at_current uniform room fl d g0) as (_ & Hzero).
  cbv zeta in *. rewrite Ht in Hoff. unfold operating in Hoff.
  set (r := fst (reading_at uniform room fl d g0)) in *.
  assert (Hc : current r = 0%float) by now apply Hzero.
  assert (Hpower : power r = 0%float).
  { rewrite Hp, Hc, Hvolt. apply voltage_times_zero. apply (Hv g0). }
  assert (Henergy : energy_kwh r = 0%float) by now rewrite He, Hpower.
  unfold idle. rewrite Hb, Hk, Henergy.
  repeat split; try assumption; try reflexivity. now apply Hstatus.
Qed.

(** X2. The voltage of every reading of the generated table lies in
    [220, 240); in the operating hours the reading is on and its current
    lies in [5, 10).  Both draws are assumed to lie in their ranges. *)
Theorem readings_in_range (g : RandomState) :
  uniform_in_range uniform 220 240 -> uniform_in_range uniform 5 10 ->
  Forall (fun r => in_range 220 240 (voltage r)
                   /\ (operating (timestamp r) ->
                       status r = "on" /\ in_range 5 10 (current r)))
         (generate_data uniform g).
Proof.
  intros Hv Hc. apply Forall_forall. intros r Hin.
  apply generate_table_In in Hin.
  destruct Hin as (room & fl & d & g0 & _ & _ & ->).
  pose proof (reading_at_voltage uniform room fl d g0) as Hvolt.
  destruct (reading_at_key uniform room fl d g0) as (Ht & _).
  destruct (reading_at_status uniform room fl d g0) as (_ & Hstatus).
  destruct (reading_at_current uniform room fl d g0) as (Hon & _).
  cbv zeta in *. rewrite Ht, Hvolt. unfold operating.
  split; [apply (Hv g0) |].
  intros Hop. split; [now apply Hstatus |].
  destruct (Hon Hop) as (g1 & ->). apply (Hc g1).
Qed.

End ReadingValues.

Lemma Lcg_scale_voltage_in_range :
  forallb (fun k => ((220 <=? Lcg.scale 220 240 (Z.of_nat k))
                     && (Lcg.scale 220 240 (Z.of_nat k) <? 240))%float)
          (seq 0 (Z.to_nat Lcg.modulus)) = true.
Proof. vm_compute. reflexivity. Qed.

Lemma Lcg_uniform_voltage_in_range : uniform_in_range Lcg.uniform 220 240.
Proof.
  intros g. unfold Lcg.uniform. cbn [fst].
  pose proof (Lcg_next_range g) as Hg.
  pose proof Lcg_scale_voltage_in_range as H.
  rewrite forallb_forall in H.
  specialize (H (Z.to_nat (Lcg.next g))).
  rewrite Z2Nat.id in H by lia.
  apply andb_true_iff. apply H. apply in_seq. lia.
Qed.

Lemma off_hours_readings_idle_witness :
  uniform_in_range Lcg.uniform 220 240
  /\ Forall (fun r => ~ operating (timestamp r) -> idle r /\ status r = "off")
            (generate_data Lcg.uniform 7).
Proof.
  split; [exact Lcg_uniform_voltage_in_range |].
  apply (off_hours_readings_idle Lcg.uniform 7).
  exact Lcg_uniform_voltage_in_range.
Defined.

Lemma readings_in_range_witness :
  uniform_in_range Lcg.uniform 220 240
  /\ uniform_in_range Lcg.uniform 5 10
  /\ Forall (fun r => in_range 220 240 (voltage r)
                      /\ (operating (timestamp r) ->
                          status r = "on" /\ in_range 5 10 (current r)))
            (generate_data Lcg.uniform 7).
Proof.
  split; [exact Lcg_uniform_voltage_in_range |].
  split; [exact Lcg_uniform_in_range |].
  apply (readings_in_range Lcg.uniform 7).
  - exact Lcg_uniform_voltage_in_range.
  - exact Lcg_uniform_in_range.
Defined.

(** ** The shape of the filtered table *)

Lemma ascending_ext (l1 l2 : list Z) :
  StronglySorted Z.lt l1 -> StronglySorted Z.lt l2 ->
  (forall x, In x l1 <-> In x l2) -> l1 = l2.
Proof.
  intros H1. revert l2.
  induction H1 as [|a l1 H1 IH Ha]; intros l2 H2 Hext.
  - destruct l2 as [|b l2]; [reflexivity |].
    destruct (proj2 (Hext b) (or_introl eq_refl)).
  - destruct H2 as [|b l2 H2 Hb].
    + destruct (proj1 (Hext a) (or_introl eq_refl)).
    + rewrite Forall_forall in Ha, Hb.
      assert (Hab : a = b).
      { destruct (proj1 (Hext a) (or_introl eq_refl)) as [Hba | Hin2];
          [now symmetry |].
        destruct (proj2 (Hext b) (or_introl eq_refl)) as [Hab | Hin1];
          [exact Hab |].
        specialize (Ha b Hin1). specialize (Hb a Hin2). lia. }
      subst b. f_equal. apply IH; [exact H2 |].
      intros x. split; intros Hx.
      * destruct (proj1 (Hext x) (or_intror Hx)) as [Hax | Hx2]; [| exact Hx2].
        specialize (Ha x Hx). lia.
      * destruct (proj2 (Hext x) (or_intror Hx)) as [Hax | Hx1]; [| exact Hx1].
        specialize (Hb x Hx). lia.
Qed.

(** The minutes of a range of minutes that lie between two bounds. *)
Lemma filter_date_range (lo hi a b : Timestamp) :
  filter (fun t => (lo <=? t) && (t <=? hi)) (date_range a b)
  = date_range (Z.max a lo) (Z.min b hi).
Proof.
  apply ascending_ext.
  - apply StronglySorted_filter, date_range_ascending.
  - apply date_range_ascending.
  - intros t. rewrite filter_In, !date_range_In, andb_true_iff, !Z.leb_le. lia.
Qed.

Lemma date_range_count (a b : Timestamp) :
  Z.of_nat (List.length (date_range a b)) = Z.max 0 (b - a + 1).
Proof.
  unfold date_range. rewrite length_map, length_seq. lia.
Qed.

Lemma date_range_snoc (a b : Timestamp) :
  a <= b -> date_range a b = date_range a (b - 1) ++ [b].
Proof.
  intros Hab. unfold date_range.
  replace (Z.to_nat (b - a + 1)) with (S (Z.to_nat (b - 1 - a + 1))) by lia.
  rewrite seq_S, map_app. cbn [map plus]. do 2 f_equal. lia.
Qed.

(** The date of a minute lies in a range of dates when the minute lies
    between the first minute of the first day and the last of the last. *)
Lemma date_filter_minutes (start_date end_date : Date) (t : Timestamp) :
  (date_of t >=? start_date) && (date_of t <=? end_date)
  = (start_date * minutes_per_day <=? t)
    && (t <=? end_date * minutes_per_day + (minutes_per_day - 1)).
Proof.
  apply Bool.eq_iff_eq_true.
  rewrite !andb_true_iff, Z.geb_le, !Z.leb_le.
  unfold date_of, minutes_per_day.
  pose proof (Z.div_mod t 1440). pose proof (Z.mod_pos_bound t 1440). lia.
Qed.

Lemma filter_list_prod_snd {A B : Type} (p : B -> bool) (ks : list A)
    (ds : list B) :
  filter (fun k => p (snd k)) (list_prod ks ds) = list_prod ks (filter p ds).
Proof.
  induction ks as [|k ks IH]; cbn [list_prod]; [reflexivity |].
  rewrite filter_app, IH. f_equal. now rewrite filter_map_swap.
Qed.

Lemma filter_list_prod_fst {A B : Type} (q : A -> bool) (ks : list A)
    (ds : list B) :
  filter (fun k => q (fst k)) (list_prod ks ds) = list_prod (filter q ks) ds.
Proof.
  induction ks as [|k ks IH]; cbn [list_prod filter]; [reflexivity |].
  rewrite filter_app, IH, filter_map_swap. cbn [fst].
  destruct (q k); cbn [list_prod].
  - f_equal. f_equal. apply filter_all, Forall_forall. reflexivity.
  - rewrite filter_none; [reflexivity |]. apply Forall_forall. reflexivity.
Qed.

Lemma map_filter_key {A B : Type} (f : A -> B) (q : B -> bool) (l : list A) :
  map f (filter (fun x => q (f x)) l) = filter q (map f l).
Proof. symmetry. apply filter_map_swap. Qed.

Lemma minutes_shown_count (start_date end_date : Date) :
  Z.of_nat (List.length (minutes_shown start_date end_date))
  = 1440 * days_shown start_date end_date.
Proof.
  unfold minutes_shown. rewrite date_range_count.
  unfold first_minute, last_minute, days_shown, minutes_per_day.
  change window_start with (date 2025 11 1 * 1440).
  change window_end with (date 2025 11 23 * 1440 + 1439).
  lia.
Qed.

Lemma minutes_shown_nil (start_date end_date : Date) :
  days_shown start_date end_date = 0 -> minutes_shown start_date end_date = [].
Proof.
  intros H. pose proof (minutes_shown_count start_date end_date) as Hlen.
  rewrite H in Hlen. destruct (minutes_shown start_date end_date);
    [reflexivity | discriminate Hlen].
Qed.

Lemma days_shown_nonneg (start_date end_date : Date) :
  0 <= days_shown start_date end_date.
Proof. unfold days_shown. lia. Qed.

(** The last minute shown is a 23:59. *)
Lemma last_minute_hour (end_date : Date) :
  hour (last_minute end_date) = 23 /\ minute (last_minute end_date) = 59.
Proof.
  unfold last_minute, minutes_per_day.
  change window_end with (date 2025 11 23 * 1440 + 1439).
  unfold hour, minute.
  destruct (Z.min_spec (date 2025 11 23 * 1440 + 1439)
                       (end_date * 1440 + (1440 - 1))) as [(_ & ->) | (_ & ->)].
  - split; reflexivity.
  - split.
    + replace ((end_date * 1440 + (1440 - 1)) / 60) with (end_date * 24 + 23).
      * rewrite Z.add_comm, Z.mod_add by lia. reflexivity.
      * apply Z.div_unique with (r := 59); lia.
    + replace (end_date * 1440 + (1440 - 1)) with (59 + (end_date * 24 + 23) * 60)
        by lia.
      rewrite Z.mod_add by lia. reflexivity.
Qed.

Lemma minutes_shown_last (start_date end_date : Date) :
  0 < days_shown start_date end_date ->
  exists earlier,
    minutes_shown start_date end_date = earlier ++ [last_minute end_date].
Proof.
  intros H. pose proof (minutes_shown_count start_date end_date) as Hlen.
  unfold minutes_shown in *. rewrite date_range_count in Hlen.
  eexists. apply date_range_snoc. lia.
Qed.

Section FilteredTable.

Context {RandomState : Type}.
Variable uniform : float -> float -> RandomState -> float * RandomState.

(** The keys of the filtered table: every room with every minute shown. *)
Lemma filtered_keys (g : RandomState) (start_date end_date : Date) :
  map key_of (filtered_df (generate_data uniform g) start_date end_date)
  = list_prod rooms (minutes_shown start_date end_date).
Proof.
  transitivity
    (filter (fun k : string * Timestamp =>
               (start_date * minutes_per_day <=? snd k)
               && (snd k <=? end_date * minutes_per_day
                             + (minutes_per_day - 1)))
            (map key_of (generate_data uniform g))).
  - rewrite filter_map_swap. unfold filtered_df. f_equal.
    apply filter_ext. intros r. apply date_filter_minutes.
  - unfold generate_data. rewrite generate_table_keys.
    etransitivity;
      [exact (filter_list_prod_snd
                (fun t => (start_date * minutes_per_day <=? t)
                          && (t <=? end_date * minutes_per_day
                                    + (minutes_per_day - 1)))
                rooms (date_range window_start window_end)) |].
    now rewrite filter_date_range.
Qed.

(** X3. The filtered table has nine readings per minute shown, 1440 minutes per
    day of the window that lies in the range. *)
Theorem filtered_row_count (g : RandomState) (start_date end_date : Date) :
  let filtered := filtered_df (generate_data uniform g) start_date end_date in
  Z.of_nat (List.length filtered) = 9 * 1440 * days_shown start_date end_date
  /\ (filtered = [] <-> days_shown start_date end_date = 0).
Proof.
  intros filtered.
  assert (Hlen : Z.of_nat (List.length filtered)
                 = 9 * 1440 * days_shown start_date end_date).
  { unfold filtered. rewrite <- (length_map key_of), filtered_keys.
    rewrite length_prod, Nat2Z.inj_mul, minutes_shown_count.
    change (Z.of_nat (List.length rooms)) with 9. lia. }
  split; [exact Hlen |]. split.
  - intros Hnil. rewrite Hnil in Hlen. cbn [List.length Z.of_nat] in Hlen. lia.
  - intros H0. rewrite H0 in Hlen. destruct filtered; [reflexivity |].
    cbn [List.length] in Hlen. lia.
Qed.

End FilteredTable.

(** ** Options and tiles of the generated table *)

Lemma unique_repeat_app (a : string) (n : nat) (rest : list string) :
  unique String.eqb (repeat a (S n) ++ rest)
  = a :: filter (fun w => negb (w =? a)%string) (unique String.eqb rest).
Proof.
  induction n as [|n IH]; [reflexivity |].
  change (repeat a (S (S n)) ++ rest) with (a :: (repeat a (S n) ++ rest)).
  cbn [unique]. rewrite IH. cbn [filter].
  rewrite String.eqb_refl. cbn [negb]. f_equal.
  rewrite (filter_all (fun w => negb (w =? a)%string)
             (filter (fun w => negb (w =? a)%string) (unique String.eqb rest)));
    [reflexivity |].
  apply Forall_forall. intros w Hw. now apply filter_In in Hw.
Qed.

Lemma unique_flat_map_repeat (f : string -> string) (ks : list string)
    (n : nat) :
  unique String.eqb (flat_map (fun k => repeat (f k) (S n)) ks)
  = unique String.eqb (map f ks).
Proof.
  induction ks as [|k ks IH]; [reflexivity |].
  cbn [flat_map map unique]. now rewrite unique_repeat_app, IH.
Qed.

Lemma map_fst_list_prod {A B C : Type} (f : A -> C) (ks : list A)
    (ds : list B) :
  map (fun p => f (fst p)) (list_prod ks ds)
  = flat_map (fun k => repeat (f k) (List.length ds)) ks.
Proof.
  induction ks as [|k ks IH]; cbn [list_prod flat_map]; [reflexivity |].
  rewrite map_app, IH, map_map. cbn [fst]. now rewrite map_const.
Qed.

Lemma date_range_last_elt (a b : Timestamp) (l : list Timestamp)
    (z : Timestamp) :
  date_range a b = l ++ [z] -> z = b.
Proof.
  intros H.
  assert (Hab : a <= b).
  { pose proof (date_range_count a b) as Hlen. rewrite H in Hlen.
    rewrite length_app in Hlen. cbn [List.length] in Hlen. lia. }
  rewrite (date_range_snoc a b Hab) in H.
  apply app_inj_tail in H. now destruct H.
Qed.

Lemma last_value_None {A : Type} (l : list A) :
  last_value l = None <-> l = [].
Proof.
  split; [| now intros ->].
  intros H. destruct l as [|a l]; [reflexivity |].
  assert (Hne : a :: l <> []) by discriminate.
  destruct (snoc_of_nonempty _ Hne) as (l' & z & Hz).
  rewrite Hz, last_value_snoc in H. discriminate.
Qed.

Lemma last_value_Some {A : Type} (l : list A) (z : A) :
  last_value l = Some z -> exists l', l = l' ++ [z].
Proof.
  intros H. destruct l as [|a l]; [discriminate |].
  assert (Hne : a :: l <> []) by discriminate.
  destruct (snoc_of_nonempty _ Hne) as (l' & z' & Hz).
  rewrite Hz, last_value_snoc in H. injection H as <-. now exists l'.
Qed.

Lemma room_alone (k : string) :
  In k rooms -> filter (fun room => (room =? k)%string) rooms = [k].
Proof.
  intros Hk. cbn in Hk.
  repeat (destruct Hk as [<- | Hk]; [reflexivity |]). destruct Hk.
Qed.

Section GeneratedViews.

Context {RandomState : Type}.
Variable uniform : float -> float -> RandomState -> float * RandomState.
Variable g : RandomState.
Variables start_date end_date : Date.

Local Notation "'filtered'" :=
  (filtered_df (generate_data uniform g) start_date end_date) (only parsing).

Lemma filtered_generated r :
  In r filtered ->
  In (room_id r) rooms
  /\ floor r = first_char (room_id r)
  /\ (status r = "off" <-> ~ operating (timestamp r))
  /\ (~ operating (timestamp r) -> current r = 0%float).
Proof.
  intros Hin. apply filtered_df_In in Hin. destruct Hin as (Hin & _).
  split; [now apply generate_table_rooms in Hin |].
  apply generate_table_In in Hin.
  destruct Hin as (room & fl & d & g0 & Hp & _ & ->).
  split; [now apply reading_at_floor |].
  destruct (reading_at_key uniform room fl d g0) as (Ht & _).
  destruct (reading_at_status uniform room fl d g0) as (Hoff & _).
  destruct (reading_at_current uniform room fl d g0) as (_ & Hzero).
  cbv zeta in *. rewrite Ht. unfold operating. split; assumption.
Qed.

(** A column of the filtered table that depends on the room alone takes
    the value of each room once per minute shown. *)
Lemma filtered_room_column (f : string -> string) :
  map (fun r => f (room_id r)) filtered
  = flat_map (fun k => repeat (f k)
                         (List.length (minutes_shown start_date end_date)))
             rooms.
Proof.
  rewrite <- (map_fst_list_prod f rooms (minutes_shown start_date end_date)).
  rewrite <- (filtered_keys uniform g), map_map. reflexivity.
Qed.

Lemma options_of_filtered (f : string -> string) :
  sorted String.leb (unique String.eqb (map (fun r => f (room_id r)) filtered))
  = if 0 <? days_shown start_date end_date
    then sorted String.leb (unique String.eqb (map f rooms))
    else [].
Proof.
  rewrite filtered_room_column.
  pose proof (minutes_shown_count start_date end_date) as Hlen.
  pose proof (days_shown_nonneg start_date end_date) as Hdays.
  destruct (List.length (minutes_shown start_date end_date)) as [|n].
  - replace (0 <? days_shown start_date end_date) with false
      by (symmetry; apply Z.ltb_ge; cbn [Z.of_nat] in Hlen; lia).
    reflexivity.
  - replace (0 <? days_shown start_date end_date) with true
      by (symmetry; apply Z.ltb_lt; lia).
    now rewrite unique_flat_map_repeat.
Qed.

Lemma room_options_of_filtered :
  room_options filtered
  = if 0 <? days_shown start_date end_date then rooms else [].
Proof.
  unfold room_options.
  change (map room_id filtered) with (map (fun r => id (room_id r)) filtered).
  rewrite options_of_filtered. reflexivity.
Qed.

Lemma floor_options_of_filtered :
  floor_options filtered
  = if 0 <? days_shown start_date end_date then ["1"; "2"; "3"] else [].
Proof.
  unfold floor_options.
  rewrite (map_ext_in floor (fun r => first_char (room_id r)))
    by (intros r Hr; apply filtered_generated in Hr;
        destruct Hr as (_ & Hr & _); exact Hr).
  rewrite options_of_filtered. reflexivity.
Qed.

(** The readings of a room in the filtered table are those of the minutes
    shown, in order. *)
Lemma room_rows_timestamps (k : string) :
  In k rooms ->
  map timestamp (filter (fun r => (room_id r =? k)%string) filtered)
  = minutes_shown start_date end_date.
Proof.
  intros Hk.
  change (map timestamp (filter (fun r => (room_id r =? k)%string) filtered))
    with (map (fun r => snd (key_of r))
              (filter (fun r => (fun p : string * Timestamp =>
                                   (fst p =? k)%string) (key_of r))
                      filtered)).
  rewrite <- (map_map key_of snd).
  rewrite (map_filter_key key_of
             (fun p : string * Timestamp => (fst p =? k)%string)).
  rewrite filtered_keys.
  etransitivity;
    [apply f_equal;
     exact (filter_list_prod_fst (fun room => (room =? k)%string) rooms
              (minutes_shown start_date end_date)) |].
  rewrite room_alone by exact Hk. cbn [list_prod].
  rewrite app_nil_r, map_map. cbn [snd]. apply map_id.
Qed.

(** The last reading of a room in the filtered table is the one of 23:59 of
    the last day shown: the room is off and draws no current. *)
Lemma latest_of_room (k : string) (z : Reading) :
  In k rooms ->
  last_value (filter (fun r => (room_id r =? k)%string) filtered) = Some z ->
  room_id z = k /\ timestamp z = last_minute end_date
  /\ status z = "off" /\ current z = 0%float.
Proof.
  intros Hk Hlast. apply last_value_Some in Hlast.
  destruct Hlast as (rows' & Hrows).
  assert (Hz : In z (filter (fun r => (room_id r =? k)%string) filtered))
    by (rewrite Hrows; apply in_or_app; right; now left).
  apply filter_In in Hz. destruct Hz as (Hz & Hroom).
  apply String.eqb_eq in Hroom.
  pose proof (room_rows_timestamps k Hk) as Hts.
  rewrite Hrows, map_app in Hts. cbn [map] in Hts.
  unfold minutes_shown in Hts. symmetry in Hts.
  apply date_range_last_elt in Hts.
  destruct (filtered_generated z Hz) as (_ & _ & Hoff & Hzero).
  assert (Hnop : ~ operating (timestamp z)).
  { rewrite Hts. unfold operating.
    destruct (last_minute_hour end_date) as (-> & _). lia. }
  split; [exact Hroom |]. split; [exact Hts |].
  split; [apply Hoff, Hnop | apply Hzero, Hnop].
Qed.

Lemma tiles_room_ids :
  map rs_room_id (room_summaries filtered)
  = if 0 <? days_shown start_date end_date then rooms else [].
Proof.
  rewrite <- room_options_of_filtered.
  rewrite room_summaries_by_group. unfold room_options. rewrite map_map.
  rewrite <- (groupby_keys String.eqb String.leb room_id filtered).
  apply map_ext. intros [k rows]. reflexivity.
Qed.

(** X4. The tiles of the Building Overview: none when no day of the window lies
    in the range, else one per room in the order 101 to 303; whatever the
    range, every tile shows the status "off", the last reading of a room
    being the one of 23:59. *)
Theorem tiles_nine_rooms_all_off :
  let tiles := room_summaries filtered in
  map rs_room_id tiles
  = (if 0 <? days_shown start_date end_date then rooms else [])
  /\ Forall (fun tile => rs_status tile = Some "off") tiles.
Proof.
  intros tiles.
  split; [apply tiles_room_ids |].
  apply Forall_forall. intros tile Htile.
  unfold tiles in Htile. rewrite room_summaries_by_group in Htile.
  apply in_map_iff in Htile.
  destruct Htile as ([k rows] & <- & Hgroup).
  apply (groupby_In _ _ String.eqb_eq) in Hgroup.
  destruct Hgroup as (Hrows & Hk & Hne).
  assert (Hk' : In k rooms).
  { apply in_map_iff in Hk. destruct Hk as (r & <- & Hr).
    apply filtered_generated in Hr. destruct Hr as (Hr & _). exact Hr. }
  cbn [snd rs_status].
  destruct (snoc_of_nonempty rows Hne) as (rows' & z & Hsnoc).
  assert (Hlast : last_value rows = Some z)
    by (rewrite Hsnoc; apply last_value_snoc).
  rewrite Hrows in Hlast.
  destruct (latest_of_room k z Hk' Hlast) as (_ & _ & Hoff & _).
  rewrite Hsnoc, map_app. cbn [map]. rewrite last_value_snoc, Hoff.
  reflexivity.
Qed.

(** X5. The three columns of tiles: with a day of the window in the range, each
    column shows one room of each floor, top to bottom. *)
Theorem tile_columns_by_floor :
  0 < days_shown start_date end_date ->
  let tiles := room_summaries filtered in
  map rs_room_id (tiles_of_column 0 tiles) = ["101"; "201"; "301"]
  /\ map rs_room_id (tiles_of_column 1 tiles) = ["102"; "202"; "302"]
  /\ map rs_room_id (tiles_of_column 2 tiles) = ["103"; "203"; "303"]
  /\ forall column, (3 <= column)%nat -> tiles_of_column column tiles = [].
Proof.
  intros Hdays tiles.
  pose proof tiles_room_ids as Hrooms. fold tiles in Hrooms.
  apply Z.ltb_lt in Hdays. rewrite Hdays in Hrooms.
  destruct tiles as [|t1 [|t2 [|t3 [|t4 [|t5 [|t6 [|t7 [|t8 [|t9 [|t10 ts]]]]]]]]]];
    try discriminate Hrooms.
  cbn [map] in Hrooms.
  injection Hrooms as H1 H2 H3 H4 H5 H6 H7 H8 H9.
  unfold tiles_of_column, tile_columns.
  cbn [List.length seq map Nat.modulo Nat.divmod fst snd combine filter Nat.eqb].
  repeat split; try (cbn; congruence).
  intros column Hc.
  do 3 (destruct column as [|column]; [lia |]). reflexivity.
Qed.

(** X6. The options of "Select Floor" and of "Select Room": the three floors
    and the nine rooms when a day of the window lies in the range, nothing
    otherwise; a choice left at its default is floor 1, room 101. *)
Theorem options_of_generated_table :
  floor_options filtered
  = (if 0 <? days_shown start_date end_date then ["1"; "2"; "3"] else [])
  /\ room_options filtered
     = (if 0 <? days_shown start_date end_date then rooms else [])
  /\ selectbox (floor_options filtered) 0
     = (if 0 <? days_shown start_date end_date then Some "1" else None)
  /\ selectbox (room_options filtered) 0
     = (if 0 <? days_shown start_date end_date then Some "101" else None).
Proof.
  rewrite floor_options_of_filtered, room_options_of_filtered.
  destruct (0 <? days_shown start_date end_date); repeat split.
Qed.

(** X7. The Room Details view of the generated table shows nothing exactly when
    no day of the window lies in the range.  Otherwise the room is one of
    the nine, its table has one reading per minute shown, and the latest
    values are those of 23:59 of the last day shown: status "off" and no
    current. *)
Theorem room_details_latest_is_off (picked : nat) :
  (room_details filtered picked = None
   <-> days_shown start_date end_date = 0)
  /\ forall details,
       room_details filtered picked = Some details ->
       (exists room, rd_selected_room details = Some room /\ In room rooms
                     /\ room_id (rd_latest details) = room)
       /\ map timestamp (rd_room_df details)
          = minutes_shown start_date end_date
       /\ Z.of_nat (List.length (rd_room_df details))
          = 1440 * days_shown start_date end_date
       /\ timestamp (rd_latest details) = last_minute end_date
       /\ status (rd_latest details) = "off"
       /\ current (rd_latest details) = 0%float.
Proof.
  pose proof (days_shown_nonneg start_date end_date) as Hnonneg.
  unfold room_details. cbv zeta. rewrite room_options_of_filtered.
  destruct (0 <? days_shown start_date end_date) eqn:Hdays.
  - apply Z.ltb_lt in Hdays.
    destruct (selectbox rooms picked) as [room |] eqn:Hsel;
      [| apply selectbox_None in Hsel; discriminate Hsel].
    assert (Hroom : In room rooms) by (apply selectbox_In in Hsel; exact Hsel).
    unfold room_df.
    pose proof (room_rows_timestamps room Hroom) as Hts.
    destruct (last_value (filter (fun r => (room_id r =? room)%string)
                                 filtered)) as [z |] eqn:Hlast.
    + cbv beta iota. split; [split; [intros H; discriminate H | lia] |].
      intros details Hd. injection Hd as <-.
      cbn [rd_selected_room rd_room_df rd_latest].
      destruct (latest_of_room room z Hroom Hlast) as (Hz & Ht & Hoff & Hc).
      split; [now exists room |]. split; [exact Hts |].
      split; [| now repeat split].
      rewrite <- (length_map timestamp), Hts. apply minutes_shown_count.
    + exfalso. apply last_value_None in Hlast. rewrite Hlast in Hts.
      pose proof (minutes_shown_count start_date end_date) as Hlen.
      rewrite <- Hts in Hlen. cbn [map List.length Z.of_nat] in Hlen. lia.
  - apply Z.ltb_ge in Hdays. cbn [selectbox nth_error hd_error room_df].
    replace (selectbox [] picked) with (@None string)
      by (symmetry; now apply selectbox_None).
    unfold room_df. rewrite filter_none by (apply Forall_forall; reflexivity).
    cbn [last_value map last]. split; [split; [lia | reflexivity] |].
    discriminate.
Qed.

(** The keys of the table of a floor: its three rooms with every minute
    shown. *)
Lemma floor_rows_keys (f : string) :
  map key_of (floor_df filtered (Some f))
  = list_prod (rooms_of_floor f) (minutes_shown start_date end_date).
Proof.
  unfold floor_df.
  rewrite (filter_ext_in
             (fun r => (floor r =? f)%string)
             (fun r => (fun p : string * Timestamp =>
                          (first_char (fst p) =? f)%string) (key_of r)))
    by (intros r Hr; apply filtered_generated in Hr;
        destruct Hr as (_ & Hr & _); cbn [key_of fst]; rewrite Hr;
        reflexivity).
  rewrite (map_filter_key key_of
             (fun p : string * Timestamp => (first_char (fst p) =? f)%string)).
  rewrite filtered_keys.
  exact (filter_list_prod_fst (fun room => (first_char room =? f)%string)
           rooms (minutes_shown start_date end_date)).
Qed.

Lemma floor_cases (f : string) :
  In f floors -> f = "1" \/ f = "2" \/ f = "3".
Proof.
  intros Hf. cbn in Hf.
  repeat (destruct Hf as [<- | Hf]; [tauto |]). destruct Hf.
Qed.

Lemma single_minute (t : Timestamp) (ms : list Timestamp) :
  StronglySorted Z.lt ms -> In t ms -> filter (fun x => x =? t) ms = [t].
Proof.
  intros Hms Ht. apply ascending_ext.
  - now apply StronglySorted_filter.
  - repeat constructor.
  - intros x. rewrite filter_In, Z.eqb_eq. cbn [In].
    split; [intros (_ & ->); now left | intros [<- | []]; now split].
Qed.

(** X8. The trend of a floor of the generated table has one entry per minute
    shown, in order, and each entry adds up three readings, one per room of
    the floor, in the order of the rooms, with the compensation of Kahan as
    the kernel of pandas does. *)
Theorem floor_trend_adds_three_rooms (f : string) :
  In f floors ->
  let fdf := floor_df filtered (Some f) in
  let trend := floor_trend fdf in
  map fst trend = minutes_shown start_date end_date
  /\ Z.of_nat (List.length fdf) = 3 * 1440 * days_shown start_date end_date
  /\ Forall (fun entry =>
       exists r1 r2 r3,
         filter (fun r => timestamp r =? fst entry) fdf = [r1; r2; r3]
         /\ map room_id [r1; r2; r3] = rooms_of_floor f
         /\ snd entry = compensated_sum [power r1; power r2; power r3])
     trend.
Proof.
  intros Hf fdf trend.
  pose proof (floor_rows_keys f) as Hkeys. fold fdf in Hkeys.
  assert (Hthree : List.length (rooms_of_floor f) = 3%nat)
    by (destruct (floor_cases f Hf) as [-> | [-> | ->]]; reflexivity).
  assert (Hminutes : forall t, In t (map timestamp fdf)
                               <-> In t (minutes_shown start_date end_date)).
  { intros t.
    change (map timestamp fdf) with (map (fun r => snd (key_of r)) fdf).
    rewrite <- (map_map key_of snd), Hkeys, in_map_iff. split.
    - intros ([k t'] & Ht & Hin). cbn [snd] in Ht. subst t'.
      apply in_prod_iff in Hin. tauto.
    - intros Ht. destruct (rooms_of_floor f) as [|k ks] eqn:Hr;
        [discriminate Hthree |].
      exists (k, t). split; [reflexivity |].
      apply in_prod_iff. split; [now left | exact Ht]. }
  assert (Hgroups : trend
            = map (fun g : Timestamp * list Reading =>
                     (fst g, compensated_sum (map power (snd g))))
                  (groupby Z.eqb Z.leb timestamp fdf))
    by apply floor_trend_by_group.
  assert (Htrend : map fst trend
                   = map fst (groupby Z.eqb Z.leb timestamp fdf)).
  { rewrite Hgroups, map_map. reflexivity. }
  split; [| split].
  - rewrite Htrend. apply ascending_ext.
    + apply groupby_timestamp_ascending.
    + apply date_range_ascending.
    + intros t. rewrite groupby_keys, sorted_In, <- Hminutes.
      apply unique_In, Z.eqb_eq.
  - rewrite <- (length_map key_of), Hkeys, length_prod, Nat2Z.inj_mul.
    rewrite minutes_shown_count, Hthree. lia.
  - apply Forall_forall. intros entry Hentry.
    rewrite Hgroups in Hentry. apply in_map_iff in Hentry.
    destruct Hentry as ([t rows] & <- & Hgroup).
    apply (groupby_In _ _ Z.eqb_eq) in Hgroup.
    destruct Hgroup as (Hrows & Ht & _). cbn [fst snd].
    apply (proj1 (Hminutes t)) in Ht.
    assert (Hrk : map key_of rows
                  = map (fun k => (k, t)) (rooms_of_floor f)).
    { rewrite Hrows.
      change (filter (fun r => timestamp r =? t) fdf)
        with (filter (fun r => (fun p : string * Timestamp => snd p =? t)
                                 (key_of r)) fdf).
      rewrite (map_filter_key key_of
                 (fun p : string * Timestamp => snd p =? t)), Hkeys.
      etransitivity;
        [exact (filter_list_prod_snd (fun x => x =? t) (rooms_of_floor f)
                  (minutes_shown start_date end_date)) |].
      rewrite single_minute by (try apply date_range_ascending; exact Ht).
      clear. induction (rooms_of_floor f) as [|k ks IH]; [reflexivity |].
      cbn [list_prod map app]. now rewrite IH. }
    rewrite <- Hrows.
    destruct (rooms_of_floor f) as [|k1 [|k2 [|k3 [|k4 ks]]]];
      try discriminate Hthree.
    destruct rows as [|r1 [|r2 [|r3 [|r4 rows]]]]; try discriminate Hrk.
    cbn [map] in Hrk. injection Hrk as H1 _ H2 _ H3 _.
    exists r1, r2, r3. split; [reflexivity |].
    split; [cbn [map]; congruence | reflexivity].
Qed.

End GeneratedViews.

(** ** The views on any table *)

Section AnyTable.

Variable filtered : DataFrame.

Lemma options_In (key : Reading -> string) (k : string) :
  In k (sorted String.leb (unique String.eqb (map key filtered)))
  <-> exists r, In r filtered /\ key r = k.
Proof.
  rewrite sorted_In, (unique_In _ String.eqb_eq), in_map_iff.
  split; intros (r & H1 & H2); exists r; tauto.
Qed.

Lemma options_nil (key : Reading -> string) :
  sorted String.leb (unique String.eqb (map key filtered)) = []
  <-> filtered = [].
Proof.
  split.
  - intros Hnil. destruct filtered as [|r rest] eqn:E; [reflexivity |].
    assert (Hin : In (key r) (sorted String.leb
                                (unique String.eqb (map key filtered)))).
    { apply options_In. exists r. split; [rewrite E; now left | reflexivity]. }
    rewrite E, Hnil in Hin. destruct Hin.
  - intros Hnil.
    destruct (sorted String.leb (unique String.eqb (map key filtered)))
      as [|k ks] eqn:E; [reflexivity |].
    assert (Hin : In k (sorted String.leb
                          (unique String.eqb (map key filtered))))
      by (rewrite E; now left).
    apply options_In in Hin. destruct Hin as (r & Hr & _).
    rewrite Hnil in Hr. destruct Hr.
Qed.

(** X9. The floor picked in "Select Floor" is a floor of the filtered table, so
    its table is empty only when the filtered table is; then no floor is
    picked, the totals are [0.0] and the trend is empty. *)
Theorem floor_summary_empty_iff (picked : nat) :
  let view := floor_summary filtered picked in
  (fs_floor_df view = [] <-> filtered = [])
  /\ (fs_selected_floor view = None <-> filtered = [])
  /\ (forall f, fs_selected_floor view = Some f ->
        exists r, In r (fs_floor_df view) /\ floor r = f)
  /\ (filtered = [] ->
      view = mkFloorSummary None [] 0%float 0%float 0%float []).
Proof.
  intros view.
  assert (Hsome : forall f, fs_selected_floor view = Some f ->
                    exists r, In r (fs_floor_df view) /\ floor r = f).
  { intros f Hsel. unfold view, floor_summary in *.
    cbn [fs_selected_floor fs_floor_df] in *.
    pose proof (selectbox_In _ _ _ Hsel) as Hin.
    apply options_In in Hin. destruct Hin as (r & Hr & Hfloor).
    exists r. split; [| exact Hfloor].
    rewrite Hsel. unfold floor_df. apply filter_In.
    split; [exact Hr | now apply String.eqb_eq]. }
  assert (Hnone : fs_selected_floor view = None <-> filtered = []).
  { unfold view, floor_summary. cbn [fs_selected_floor].
    rewrite selectbox_None. apply options_nil. }
  assert (Hempty : filtered = [] ->
                   view = mkFloorSummary None [] 0%float 0%float 0%float []).
  { intros Hnil. unfold view, floor_summary, floor_options.
    rewrite Hnil. now destruct picked. }
  split; [| split; [exact Hnone | split; [exact Hsome | exact Hempty]]].
  split.
  - intros Hnil. destruct (fs_selected_floor view) as [f |] eqn:Hsel.
    + destruct (Hsome f eq_refl) as (r & Hr & _).
      rewrite Hnil in Hr. destruct Hr.
    + now apply Hnone.
  - intros Hnil. now rewrite (Hempty Hnil).
Qed.

(** X10. The room picked in "Select Room" is a room of the filtered table, so
    the Room Details view shows nothing only when the filtered table is
    empty; what it shows as latest is the last reading of the picked room
    in the filtered table. *)
Theorem room_details_none_iff (picked : nat) :
  (room_details filtered picked = None <-> filtered = [])
  /\ forall details,
       room_details filtered picked = Some details ->
       exists room earlier,
         rd_selected_room details = Some room
         /\ rd_room_df details
            = filter (fun r => (room_id r =? room)%string) filtered
         /\ rd_room_df details = earlier ++ [rd_latest details]
         /\ In (rd_latest details) filtered
         /\ room_id (rd_latest details) = room.
Proof.
  unfold room_details. cbv zeta.
  destruct (selectbox (room_options filtered) picked) as [room |] eqn:Hsel.
  - pose proof (selectbox_In _ _ _ Hsel) as Hin.
    apply options_In in Hin. destruct Hin as (r & Hr & Hroom).
    assert (Hrow : In r (room_df filtered (Some room))).
    { unfold room_df. apply filter_In.
      split; [exact Hr | now apply String.eqb_eq]. }
    destruct (last_value (room_df filtered (Some room))) as [z |] eqn:Hlast.
    + split.
      * split; [intros H; discriminate H |].
        intros Hnil. rewrite Hnil in Hr. destruct Hr.
      * intros details Hd. injection Hd as <-.
        cbn [rd_selected_room rd_room_df rd_latest].
        apply last_value_Some in Hlast. destruct Hlast as (earlier & Hrows).
        exists room, earlier.
        assert (Hz : In z (room_df filtered (Some room)))
          by (rewrite Hrows; apply in_or_app; right; now left).
        unfold room_df in Hz. apply filter_In in Hz.
        destruct Hz as (Hz & Hzroom). apply String.eqb_eq in Hzroom.
        repeat split; assumption.
    + apply last_value_None in Hlast. rewrite Hlast in Hrow. destruct Hrow.
  - apply selectbox_None in Hsel. apply options_nil in Hsel.
    unfold room_df. rewrite filter_none by (apply Forall_forall; reflexivity).
    cbn [last_value map last].
    split; [split; [intros _; exact Hsel | reflexivity] |].
    intros details Hd. discriminate Hd.
Qed.

End AnyTable.

(** ** Runs of the Device Management view *)

Module RegistryFacts.

Lemma get_None k d : Dict.get k d = None <-> ~ In k (Dict.keys d).
Proof.
  rewrite <- DictFacts.contains_In. unfold Dict.contains.
  destruct (Dict.get k d); split; congruence.
Qed.

Lemma get_remove_same k d :
  NoDup (Dict.keys d) -> Dict.get k (Dict.remove k d) = None.
Proof.
  intros Hnd. apply get_None. now apply DictFacts.remove_not_In.
Qed.

Lemma get_remove_other k d k' :
  k' <> k -> Dict.get k' (Dict.remove k d) = Dict.get k' d.
Proof.
  intros Hne. induction d as [|[k0 v0] d IH]; cbn [Dict.remove Dict.get];
    [reflexivity |].
  destruct (k =? k0)%string eqn:E; cbn [Dict.get].
  - apply String.eqb_eq in E. subst k0.
    apply String.eqb_neq in Hne. now rewrite Hne.
  - now rewrite IH.
Qed.

Lemma length_remove k d :
  In k (Dict.keys d) ->
  S (List.length (Dict.remove k d)) = List.length d.
Proof.
  induction d as [|[k0 v0] d IH]; cbn [Dict.keys map fst Dict.remove];
    [intros [] |].
  destruct (k =? k0)%string eqn:E; [reflexivity |].
  apply String.eqb_neq in E. intros [H | H]; [congruence |].
  cbn [List.length]. f_equal. now apply IH.
Qed.

Lemma set_new k v d :
  ~ In k (Dict.keys d) -> Dict.set k v d = d ++ [(k, v)].
Proof.
  induction d as [|[k0 v0] d IH]; cbn [Dict.keys map fst Dict.set app];
    [reflexivity |].
  intros Hk. destruct (k =? k0)%string eqn:E.
  - apply String.eqb_eq in E. subst k0. destruct Hk. now left.
  - f_equal. apply IH. intros H. apply Hk. now right.
Qed.

Lemma remove_appended k v d :
  ~ In k (Dict.keys d) -> Dict.remove k (d ++ [(k, v)]) = d.
Proof.
  induction d as [|[k0 v0] d IH]; cbn [Dict.keys map fst Dict.remove app].
  - intros _. now rewrite String.eqb_refl.
  - intros Hk. destruct (k =? k0)%string eqn:E.
    + apply String.eqb_eq in E. subst k0. destruct Hk. now left.
    + f_equal. apply IH. intros H. apply Hk. now right.
Qed.

Lemma set_nonempty k v d : Dict.set k v d <> [].
Proof.
  destruct d as [|[k0 v0] d]; cbn [Dict.set]; [discriminate |].
  destruct (k =? k0)%string; discriminate.
Qed.

End RegistryFacts.

(** What the "Delete Device" block does to a run that has not failed. *)
Lemma delete_device_selected (inp : DeviceInput) (r : Run) (k : string) :
  delete_clicked inp = true ->
  selectbox (Dict.keys (devices r)) (delete_picked inp) = Some k ->
  delete_device inp r
  = mkRun (Dict.remove k (devices r))
          (page r ++ [Success ("Deleted device for room " ++ k)%string])
          (raised r).
Proof.
  intros Hdel Hsel. unfold delete_device. rewrite Hdel, Hsel.
  cbn [delitem].
  apply selectbox_In in Hsel. apply DictFacts.contains_In in Hsel.
  now rewrite Hsel.
Qed.

(** X11. Deleting in a registry that is not empty never fails: the room picked
    comes from the enumeration.  The run removes that room and no other,
    says so, and the registry has one entry less. *)
Theorem delete_removes_selected_room (inp : DeviceInput) (session : Dict.t) :
  NoDup (Dict.keys session) ->
  session <> [] ->
  add_clicked inp = false ->
  delete_clicked inp = true ->
  let run := device_management inp session in
  exists room,
    selectbox (Dict.keys session) (delete_picked inp) = Some room
    /\ In room (Dict.keys session)
    /\ raised run = None
    /\ devices run = Dict.remove room session
    /\ Dict.get room (devices run) = None
    /\ (forall k, k <> room -> Dict.get k (devices run) = Dict.get k session)
    /\ S (List.length (devices run)) = List.length session
    /\ In (Success ("Deleted device for room " ++ room)%string) (page run).
Proof.
  intros Hnd Hne Hadd Hdel run.
  destruct (selectbox (Dict.keys session) (delete_picked inp)) as [room |]
    eqn:Hsel.
  - exists room.
    pose proof (selectbox_In _ _ _ Hsel) as Hin.
    assert (Hrun : run
                   = footer (mkRun (Dict.remove room session)
                               ([Dataframe (Dict.items session)]
                                ++ [Success ("Deleted device for room "
                                             ++ room)%string])
                               None)).
    { pose proof (delete_device_selected inp
                    (mkRun session [Dataframe (Dict.items session)] None)
                    room Hdel Hsel) as Hd.
      unfold run, device_management, and_then, add_update_device.
      cbn [raised]. rewrite Hadd. cbn [raised]. rewrite Hd. reflexivity. }
    rewrite Hrun. cbn [footer devices raised page].
    split; [reflexivity |]. split; [exact Hin |].
    split; [reflexivity |]. split; [reflexivity |].
    split; [now apply RegistryFacts.get_remove_same |].
    split; [intros k Hk; now apply RegistryFacts.get_remove_other |].
    split; [now apply RegistryFacts.length_remove |].
    apply in_or_app. left. apply in_or_app. right. now left.
  - apply selectbox_None in Hsel. destruct session; [now destruct Hne |].
    discriminate Hsel.
Qed.

Lemma delete_removes_selected_room_witness :
  let inp := mkDeviceInput "" "" false 1 true in
  let session := [("101", "device_101"); ("102", "device_102")] in
  exists room,
    selectbox (Dict.keys session) (delete_picked inp) = Some room
    /\ devices (device_management inp session) = Dict.remove room session.
Proof.
  intros inp session.
  assert (Hnd : NoDup (Dict.keys session)).
  { repeat constructor; cbn; intuition discriminate. }
  assert (Hne : session <> []) by discriminate.
  destruct (delete_removes_selected_room inp session Hnd Hne eq_refl eq_refl)
    as (room & Hsel & _ & _ & Hdevices & _).
  exists room. split; [exact Hsel | exact Hdevices].
Defined.

(** X12. A run of the Device Management view fails in one case only: "Delete
    Device" is clicked while the registry is empty and nothing is stored by
    the same run. *)
Theorem device_management_fails_iff (inp : DeviceInput) (session : Dict.t) :
  failed (device_management inp session)
  <-> delete_clicked inp = true
      /\ session = []
      /\ (add_clicked inp = false \/ new_room inp = "" \/ new_device inp = "").
Proof.
  unfold failed, device_management.
  assert (Hdelete : forall d pg,
            ((exists e, raised (and_then (and_then (mkRun d pg None)
                                                   (delete_device inp))
                                         footer) = Some e)
             <-> delete_clicked inp = true /\ d = [])).
  { intros d pg. unfold and_then at 2. cbn [raised].
    unfold delete_device. cbn [devices page raised].
    destruct (delete_clicked inp) eqn:Hdel.
    - destruct (selectbox (Dict.keys d) (delete_picked inp)) as [k |] eqn:Hsel.
      + pose proof (selectbox_In _ _ _ Hsel) as Hin.
        cbn [delitem]. apply DictFacts.contains_In in Hin as Hc. rewrite Hc.
        cbn [and_then raised footer]. split.
        * intros (e & He). discriminate He.
        * intros (_ & Hnil). rewrite Hnil in Hin. destruct Hin.
      + apply selectbox_None in Hsel. cbn [delitem and_then raised].
        split; [intros _ | intros _; now eexists].
        split; [reflexivity |]. now destruct d.
    - cbn [and_then raised footer]. split.
      + intros (e & He). discriminate He.
      + intros (H & _). discriminate H. }
  unfold and_then at 3. cbn [raised]. unfold add_update_device.
  cbn [devices page raised].
  destruct (add_clicked inp) eqn:Hadd.
  - destruct (truthy (new_room inp)) eqn:Hroom;
      destruct (truthy (new_device inp)) eqn:Hdev; cbn [andb];
      rewrite Hdelete.
    + split.
      * intros (_ & Hnil). now apply RegistryFacts.set_nonempty in Hnil.
      * apply truthy_nonempty in Hroom, Hdev.
        intros (_ & _ & [H | [H | H]]); [discriminate H | tauto | tauto].
    + unfold truthy in Hdev. apply negb_false_iff, String.eqb_eq in Hdev. tauto.
    + unfold truthy in Hroom. apply negb_false_iff, String.eqb_eq in Hroom.
      tauto.
    + unfold truthy in Hroom. apply negb_false_iff, String.eqb_eq in Hroom.
      tauto.
  - rewrite Hdelete. tauto.
Qed.

(** X13. The keys of the registry after an insert-or-update: a room that has a
    device keeps its place in the enumeration, a new room comes last. *)
Theorem add_update_keeps_order (inp : DeviceInput) (session : Dict.t) :
  add_clicked inp = true ->
  delete_clicked inp = false ->
  new_room inp <> "" -> new_device inp <> "" ->
  let run := device_management inp session in
  (In (new_room inp) (Dict.keys session) ->
   Dict.keys (devices run) = Dict.keys session)
  /\ (~ In (new_room inp) (Dict.keys session) ->
      devices run = session ++ [(new_room inp, new_device inp)])
  /\ In (Success ("Added/Updated device " ++ new_device inp
                  ++ " for room " ++ new_room inp)%string) (page run).
Proof.
  intros Hadd Hdel Hroom Hdev run.
  apply truthy_nonempty in Hroom, Hdev.
  assert (Hrun : run
                 = footer (mkRun (Dict.set (new_room inp) (new_device inp)
                                           session)
                             ([Dataframe (Dict.items session)]
                              ++ [Success ("Added/Updated device "
                                           ++ new_device inp ++ " for room "
                                           ++ new_room inp)%string])
                             None)).
  { unfold run, device_management, and_then, add_update_device, delete_device.
    cbn [raised devices page]. rewrite Hadd, Hroom, Hdev.
    cbn [andb raised devices page]. rewrite Hdel. reflexivity. }
  rewrite Hrun. cbn [footer devices page]. split; [| split].
  - intros Hin. rewrite DictFacts.keys_set.
    apply DictFacts.contains_In in Hin. now rewrite Hin.
  - intros Hnew. now apply RegistryFacts.set_new.
  - apply in_or_app. left. apply in_or_app. right. now left.
Qed.

Lemma add_update_keeps_order_witness :
  let inp := mkDeviceInput "101" "dev_new" true 0 false in
  let session := [("101", "device_101"); ("102", "device_102")] in
  Dict.keys (devices (device_management inp session)) = Dict.keys session.
Proof.
  intros inp session.
  assert (Hroom : new_room inp <> "") by discriminate.
  assert (Hdev : new_device inp <> "") by discriminate.
  destruct (add_update_keeps_order inp session eq_refl eq_refl Hroom Hdev)
    as (Hkeep & _).
  apply Hkeep. cbn. now left.
Defined.

(** X14. Adding a device for a room that has none and then deleting that room,
    picked where it was appended, gives back the registry as it was. *)
Theorem add_then_delete_restores (room device : string) (session : Dict.t)
    (other_room other_device : string) (picked : nat) :
  ~ In room (Dict.keys session) ->
  room <> "" -> device <> "" ->
  let added :=
    device_management (mkDeviceInput room device true picked false) session in
  let deleted :=
    device_management
      (mkDeviceInput other_room other_device false (List.length session) true)
      (devices added) in
  Dict.get room (devices added) = Some device
  /\ devices deleted = session
  /\ raised deleted = None.
Proof.
  intros Hnew Hroom Hdev added deleted.
  apply truthy_nonempty in Hroom, Hdev.
  assert (Hadded : devices added = session ++ [(room, device)]).
  { unfold added, device_management, and_then, add_update_device,
      delete_device.
    cbn [raised devices page add_clicked new_room new_device delete_clicked].
    rewrite Hroom, Hdev. cbn [andb raised devices page footer].
    now apply RegistryFacts.set_new. }
  assert (Hsel : selectbox (Dict.keys (devices added)) (List.length session)
                 = Some room).
  { rewrite Hadded. unfold selectbox, Dict.keys. rewrite map_app.
    rewrite nth_error_app2 by (rewrite length_map; lia).
    rewrite length_map, Nat.sub_diag. reflexivity. }
  split.
  - rewrite Hadded, <- (RegistryFacts.set_new room device session Hnew).
    apply DictFacts.get_set_same.
  - assert (Hrun : deleted
                   = footer (mkRun (Dict.remove room (devices added))
                               ([Dataframe (Dict.items (devices added))]
                                ++ [Success ("Deleted device for room "
                                             ++ room)%string])
                               None)).
    { pose proof (delete_device_selected
                    (mkDeviceInput other_room other_device false
                                   (List.length session) true)
                    (mkRun (devices added)
                           [Dataframe (Dict.items (devices added))] None)
                    room eq_refl Hsel) as Hd.
      unfold deleted, device_management, and_then, add_update_device.
      cbn [raised add_clicked]. rewrite Hd. reflexivity. }
    rewrite Hrun. cbn [footer devices raised]. rewrite Hadded.
    split; [now apply RegistryFacts.remove_appended | reflexivity].
Qed.

Lemma add_then_delete_restores_witness :
  let session := [("101", "device_101"); ("102", "device_102")] in
  let added :=
    device_management (mkDeviceInput "201" "dev_201" true 0 false) session in
  devices (device_management (mkDeviceInput "" "" false 2 true)
                             (devices added))
  = session.
Proof.
  intros session added.
  assert (Hnew : ~ In "201" (Dict.keys session))
    by (cbn; intuition discriminate).
  assert (Hroom : "201" <> "") by discriminate.
  assert (Hdev : "dev_201" <> "") by discriminate.
  exact (proj1 (proj2 (add_then_delete_restores "201" "dev_201" session
                         "" "" 0 Hnew Hroom Hdev))).
Defined.

(** X15. The keys of the registry stay distinct over any run of the view. *)
Theorem registry_keys_stay_distinct (inp : DeviceInput) (session : Dict.t) :
  NoDup (Dict.keys session) ->
  let run := device_management inp session in
  NoDup (Dict.keys (devices run))
  /\ forall k v, In (k, v) (Dict.items (devices run)) ->
                 Dict.get k (devices run) = Some v.
Proof.
  intros Hnd run.
  assert (H : NoDup (Dict.keys (devices run)))
    by now apply device_management_NoDup.
  split; [exact H |]. intros k v. now apply DictFacts.In_get.
Qed.

Lemma registry_keys_stay_distinct_witness :
  let inp := mkDeviceInput "201" "dev_201" true 0 true in
  let session := [("101", "device_101"); ("102", "device_102")] in
  NoDup (Dict.keys (devices (device_management inp session))).
Proof.
  intros inp session.
  assert (Hnd : NoDup (Dict.keys session)).
  { repeat constructor; cbn; intuition discriminate. }
  exact (proj1 (registry_keys_stay_distinct inp session Hnd)).
Defined.

(** ** The registry of a new session *)

Section NewSession.

Context {RandomState : Type}.
Variable uniform : float -> float -> RandomState -> float * RandomState.

(** X16. The registry a new session starts with: one device per room of the
    generated table, named after the room, in the order of the rooms, so
    the room offered first for deletion is 101. *)
Theorem new_session_registry (g : RandomState) :
  let session := initial_devices (generate_data uniform g) in
  Dict.keys session = rooms
  /\ NoDup (Dict.keys session)
  /\ (forall room, In room rooms ->
        Dict.get room session = Some ("device_" ++ room)%string)
  /\ (forall room, ~ In room rooms -> Dict.get room session = None)
  /\ selectbox (Dict.keys session) 0 = Some "101".
Proof.
  intros session.
  assert (Hs : session
               = map (fun room => (room, ("device_" ++ room)%string)) rooms).
  { unfold session, initial_devices. rewrite generate_data_rooms.
    reflexivity. }
  assert (Hkeys : Dict.keys session = rooms) by (rewrite Hs; reflexivity).
  split; [exact Hkeys |]. split; [rewrite Hkeys; apply rooms_NoDup |].
  split; [| split].
  - intros room Hroom. rewrite Hs. cbn in Hroom.
    repeat (destruct Hroom as [<- | Hroom]; [reflexivity |]). destruct Hroom.
  - intros room Hroom. apply RegistryFacts.get_None. now rewrite Hkeys.
  - rewrite Hkeys. reflexivity.
Qed.

End NewSession.

(** ** Narrowing the range *)

(** X17. Filtering a filtered table again keeps the readings whose date lies in
    both ranges: the later first day to the earlier last day.  So the same
    range twice changes nothing, and a range inside the first gives what it
    gives on the full table. *)
Theorem filtered_df_narrowing (data_df : DataFrame)
    (start1 end1 start2 end2 : Date) :
  filtered_df (filtered_df data_df start1 end1) start2 end2
  = filtered_df data_df (Z.max start1 start2) (Z.min end1 end2)
  /\ filtered_df (filtered_df data_df start1 end1) start1 end1
     = filtered_df data_df start1 end1
  /\ (start1 <= start2 -> end2 <= end1 ->
      filtered_df (filtered_df data_df start1 end1) start2 end2
      = filtered_df data_df start2 end2).
Proof.
  assert (H : forall s1 e1 s2 e2,
            filtered_df (filtered_df data_df s1 e1) s2 e2
            = filtered_df data_df (Z.max s1 s2) (Z.min e1 e2)).
  { intros s1 e1 s2 e2. unfold filtered_df.
    induction data_df as [|r rows IH]; cbn [filter]; [reflexivity |].
    destruct (date_of (timestamp r) >=? s1) eqn:E1;
      destruct (date_of (timestamp r) <=? e1) eqn:E2;
      destruct (date_of (timestamp r) >=? Z.max s1 s2) eqn:E3;
      destruct (date_of (timestamp r) <=? Z.min e1 e2) eqn:E4;
      cbn [andb filter];
      try (destruct (date_of (timestamp r) >=? s2) eqn:E5;
           destruct (date_of (timestamp r) <=? e2) eqn:E6; cbn [andb]);
      rewrite ?IH; try reflexivity; exfalso;
      rewrite ?Z.geb_leb, ?Z.leb_le, ?Z.leb_gt in *; lia. }
  split; [apply H |]. split.
  - rewrite H. now rewrite Z.max_id, Z.min_id.
  - intros Hs He. rewrite H.
    now rewrite (Z.max_r start1 start2), (Z.min_r end1 end2) by lia.
Qed.

(** ** Further properties at concrete inputs *)

Lemma tile_columns_by_floor_witness :
  0 < days_shown (date 2025 11 1) (date 2025 11 1)
  /\ map rs_room_id
         (tiles_of_column 0
            (room_summaries
               (filtered_df (generate_data Lcg.uniform 7)
                            (date 2025 11 1) (date 2025 11 1))))
     = ["101"; "201"; "301"].
Proof.
  assert (H : 0 < days_shown (date 2025 11 1) (date 2025 11 1))
    by reflexivity.
  split; [exact H |].
  exact (proj1 (tile_columns_by_floor Lcg.uniform 7
                  (date 2025 11 1) (date 2025 11 1) H)).
Defined.

Lemma floor_trend_adds_three_rooms_witness :
  In "2" floors
  /\ map fst (floor_trend
                (floor_df (filtered_df (generate_data Lcg.uniform 7)
                                       (date 2025 11 1) (date 2025 11 1))
                          (Some "2")))
     = minutes_shown (date 2025 11 1) (date 2025 11 1).
Proof.
  assert (H : In "2" floors) by (cbn; tauto).
  split; [exact H |].
  exact (proj1 (floor_trend_adds_three_rooms Lcg.uniform 7
                  (date 2025 11 1) (date 2025 11 1) "2" H)).
Defined.

(** ** The sums at concrete inputs *)

(** The sum of a column and the sum of a group round as numpy and pandas
    do, not as a loop from left to right does. *)
Example sums_of_harmonic :
  sum (harmonic 300) = 0x1.92172a3e6965ap+2%float
  /\ compensated_sum (harmonic 300) = 0x1.92172a3e6965ap+2%float
  /\ compensated_mean (harmonic 300) = 0x1.571e01ea2a26fp-6%float
  /\ fold_left PrimFloat.add (harmonic 300) 0%float
     = 0x1.92172a3e69658p+2%float.
Proof. vm_compute. repeat split. Qed.

Example compensated_sum_of_tenths :
  compensated_sum [0x1.999999999999ap-4; 0x1.999999999999ap-3;
                   0x1.3333333333333p-2]%float
  = 0x1.3333333333333p-1%float
  /\ (0x1.999999999999ap-4 + 0x1.999999999999ap-3 + 0x1.3333333333333p-2)%float
     = 0x1.3333333333334p-1%float.
Proof. vm_compute. split; reflexivity. Qed.

Example compensated_sum_keeps_small_terms :
  compensated_sum [0x1.1c37937e08000p+53; 1; 1]%float
  = 0x1.1c37937e08001p+53%float
  /\ sum [0x1.1c37937e08000p+53; 1; 1]%float = 0x1.1c37937e08000p+53%float.
Proof. vm_compute. split; reflexivity. Qed.

(** The kernels on a frame of two rooms whose rows alternate. *)
Example kernels_on_two_rooms :
  let frame := [("102", 0x1.999999999999ap-4); ("101", 1);
                ("102", 0x1.999999999999ap-3); ("101", 2);
                ("102", 0x1.3333333333333p-2)]%float in
  let labels := codes String.eqb String.leb fst frame in
  labels = [1; 0; 1; 0; 1]%nat
  /\ group_sum 2 (map snd frame) labels = [3; 0x1.3333333333333p-1]%float
  /\ group_mean 2 (map snd frame) labels
     = [0x1.8p+0; 0x1.9999999999999p-3]%float.
Proof. vm_compute. repeat split. Qed.
